(** * MCHX data sorting: a shallow embedding of [app.py]

    [app.py] is a Streamlit script.  It loads an uploaded workbook with
    openpyxl, reads 34 fixed cells of every worksheet into a dict, turns the
    list of dicts into a pandas DataFrame, writes the frame into a fresh
    workbook and offers it for download; everything runs inside one
    [try/except Exception].

    The embedding follows the script line by line.  The three libraries it
    calls are modelled by the part of their behaviour the script reaches:

    - Python: [str.removesuffix], [int(str)] in base 10 (CPython's
      [PyLong_FromString]), [float(int)], true division, insertion-ordered
      dicts;
    - openpyxl: [Worksheet.cell] on a loaded sheet and on the output sheet
      ([Cell._bind_value], [Cell.check_string]);
    - pandas (2.x, numpy backend): [DataFrame(list_of_dicts)] with its
      column-wise type inference ([lib.maybe_convert_objects]),
      [DataFrame.itertuples], [DataFrame.head].

    Cell values are the Python scalars [None], [bool], [int], [float] and
    [str]; text is a Rocq [string], one character per byte, which is exact
    for ASCII text (for characters outside ASCII the integer parser knows
    neither digits nor blanks).  Floats are IEEE-754 binary64
    values in their [SpecFloat] form.  Date-typed cells are outside the
    model.  Parsing the uploaded bytes and serialising the output workbook
    are the codec's business and enter as two functions. *)

From Stdlib Require Import ZArith QArith String Ascii SpecFloat Lia.
From stdpp Require Import base option list gmap strings.

#[local] Open Scope string_scope.
#[local] Open Scope list_scope.
#[local] Open Scope Z_scope.

(** ** Python *)

Module Py.

(** The two ways [int(str)] fails, and the one way [Worksheet.cell] does;
    all three are [ValueError]s. *)
Inductive value_error :=
| InvalidLiteral (text : string)
| ExceedsDigitLimit (digits : nat)
| BadCoordinate.

Inductive exn :=
| ValueError (why : value_error)
| ZeroDivisionError
| OverflowError
| IllegalCharacterError (text : string)
| StreamlitAPIException
| CodecError (msg : string).

Inductive result (A : Type) :=
| Ok (a : A)
| Raise (e : exn).
Arguments Ok {A} a.
Arguments Raise {A} e.

#[export] Instance result_ret : MRet result := @Ok.
#[export] Instance result_bind : MBind result :=
  fun A B f m => match m with Ok a => f a | Raise e => Raise e end.

Definition is_ok {A} (r : result A) : bool :=
  match r with Ok _ => true | Raise _ => false end.

(** Python scalars a cell can hold. *)
Inductive pyval :=
| VNone
| VBool (b : bool)
| VInt (n : Z)
| VFloat (x : spec_float)
| VStr (s : string).

Definition isinstance_str (v : pyval) : bool :=
  match v with VStr _ => true | _ => false end.

(** Binary64. *)
Definition prec : Z := 53.
Definition emax : Z := 1024.
Definition nan : spec_float := S754_nan.

Definition is_nan (x : spec_float) : bool :=
  match x with S754_nan => true | _ => false end.

(** [float(n)] for an [int]: round to nearest, ties to even;
    [OverflowError] beyond the largest double. *)
Definition float_of_int (n : Z) : result spec_float :=
  match binary_normalize prec emax n 0 false with
  | S754_infinity _ => Raise OverflowError
  | x => Ok x
  end.

(** [a / b] on ints.  The quotient is kept as an exact fraction. *)
Definition truediv (a b : Z) : result Q :=
  if b =? 0 then Raise ZeroDivisionError
  else Ok (Qdiv (inject_Z a) (inject_Z b)).

(** *** str *)

Definition endswith (s suffix : string) : bool :=
  let n := String.length s in
  let k := String.length suffix in
  (k <=? n)%nat && String.eqb (substring (n - k) k s) suffix.

(** [s.removesuffix(suffix)]: one occurrence, and only a non-empty one. *)
Definition removesuffix (s suffix : string) : string :=
  if negb (String.eqb suffix "") && endswith s suffix
  then substring 0 (String.length s - String.length suffix) s
  else s.

(** *** int(str), base 10 *)

(** [Py_ISSPACE]: tab, line feed, vertical tab, form feed, carriage return,
    space. *)
Definition isspace (c : ascii) : bool :=
  let n := N_of_ascii c in
  ((9 <=? n) && (n <=? 13) || (n =? 32))%N.

Definition digit_value (c : ascii) : option Z :=
  let n := N_of_ascii c in
  if ((48 <=? n) && (n <=? 57))%N then Some (Z.of_N n - 48) else None.

Definition is_underscore (c : ascii) : bool := Ascii.eqb c "_"%char.

Fixpoint skip_space (s : list ascii) : list ascii :=
  match s with
  | c :: rest => if isspace c then skip_space rest else s
  | [] => []
  end.

(** An optional sign; [true] for minus. *)
Definition take_sign (s : list ascii) : bool * list ascii :=
  match s with
  | c :: rest =>
      if Ascii.eqb c "+"%char then (false, rest)
      else if Ascii.eqb c "-"%char then (true, rest)
      else (false, s)
  | [] => (false, [])
  end.

(** The scan over digits and underscores: a doubled or a trailing
    underscore is a syntax error; otherwise the scan stops at the first
    character that is neither, with the value read, the number of digits and
    what is left. *)
Inductive scanned :=
| ScanBad
| ScanEnd (acc : Z) (digits : nat) (rest : list ascii).

Fixpoint scan_digits (prev_underscore : bool) (acc : Z) (digits : nat)
    (s : list ascii) : scanned :=
  match s with
  | c :: rest =>
      if is_underscore c then
        if prev_underscore then ScanBad
        else scan_digits true acc digits rest
      else
        match digit_value c with
        | Some d => scan_digits false (10 * acc + d) (S digits) rest
        | None => if prev_underscore then ScanBad else ScanEnd acc digits s
        end
  | [] => if prev_underscore then ScanBad else ScanEnd acc digits []
  end.

(** [sys.get_int_max_str_digits()], at its default. *)
Definition int_max_str_digits : nat := 4300.

Definition int (text : string) : result Z :=
  let invalid := Raise (ValueError (InvalidLiteral text)) in
  let '(negative, s) := take_sign (skip_space (list_ascii_of_string text)) in
  match s with
  | [] => invalid
  | c :: _ =>
      if is_underscore c then invalid
      else
        match scan_digits false 0 0 s with
        | ScanBad => invalid
        | ScanEnd acc digits rest =>
            if (digits =? 0)%nat then invalid
            else
              match skip_space rest with
              | _ :: _ => invalid
              | [] =>
                  if (int_max_str_digits <? digits)%nat
                  then Raise (ValueError (ExceedsDigitLimit digits))
                  else Ok (if negative then - acc else acc)
              end
        end
  end.

(** *** dict: insertion ordered, keys unique *)

Definition dict (V : Type) : Type := list (string * V).

(** [d[k] = v]: an existing key keeps its place. *)
Fixpoint setitem {V} (d : dict V) (k : string) (v : V) : dict V :=
  match d with
  | [] => [(k, v)]
  | (k', v') :: rest =>
      if String.eqb k' k then (k', v) :: rest
      else (k', v') :: setitem rest k v
  end.

(** [d.get(k, default)]. *)
Fixpoint get {V} (d : dict V) (k : string) (default : V) : V :=
  match d with
  | [] => default
  | (k', v') :: rest => if String.eqb k' k then v' else get rest k default
  end.

Definition keys {V} (d : dict V) : list string := d.*1.

End Py.

(** ** openpyxl *)

Module Openpyxl.
Import Py.

(** A loaded worksheet is its [_cells]: values keyed by (row, column),
    both counted from 1.  A loaded workbook is its list of worksheets
    ([wb.worksheets], in file order). *)
Abbreviation worksheet := (gmap (Z * Z) pyval).
Abbreviation workbook := (list (gmap (Z * Z) pyval)).

(** [ws.cell(row=r, column=c).value]: a cell the sheet does not have is
    created empty. *)
Definition cell_value (ws : worksheet) (r c : Z) : result pyval :=
  if (r <? 1) || (c <? 1) then Raise (ValueError BadCoordinate)
  else Ok (default VNone (ws !! (r, c))).

(** Cells of the workbook under construction. *)
Inductive cell_type :=
| TYPE_NUMERIC
| TYPE_STRING
| TYPE_FORMULA
| TYPE_ERROR
| TYPE_BOOL.

Record Cell := { data_type : cell_type; value : pyval }.

Definition ERROR_CODES : list string :=
  ["#NULL!"; "#DIV/0!"; "#VALUE!"; "#REF!"; "#NAME?"; "#NUM!"; "#N/A"].

(** [ILLEGAL_CHARACTERS_RE]: the control characters XML cannot carry. *)
Definition illegal_character (c : ascii) : bool :=
  let n := N_of_ascii c in
  ((n <=? 8) || (11 <=? n) && (n <=? 12) || (14 <=? n) && (n <=? 31))%N.

(** [Cell.check_string]: cut at 32767 characters, refuse control
    characters. *)
Definition check_string (s : string) : result string :=
  let s := substring 0 (Z.to_nat 32767) s in
  if existsb illegal_character (list_ascii_of_string s)
  then Raise (IllegalCharacterError s)
  else Ok s.

Definition startswith_eq (s : string) : bool :=
  match s with
  | String c _ => Ascii.eqb c "="%char
  | EmptyString => false
  end.

(** [Cell._bind_value]. *)
Definition bind_value (v : pyval) : result Cell :=
  match v with
  | VNone | VInt _ | VFloat _ => Ok {| data_type := TYPE_NUMERIC; value := v |}
  | VBool _ => Ok {| data_type := TYPE_BOOL; value := v |}
  | VStr s =>
      s ← check_string s;
      if (1 <? String.length s)%nat && startswith_eq s
      then Ok {| data_type := TYPE_FORMULA; value := VStr s |}
      else if bool_decide (s ∈ ERROR_CODES)
      then Ok {| data_type := TYPE_ERROR; value := VStr s |}
      else Ok {| data_type := TYPE_STRING; value := VStr s |}
  end.

(** The sheet of a fresh [Workbook()]: a title and no cells. *)
Record Worksheet := { title : string; _cells : gmap (Z * Z) Cell }.

Definition active : Worksheet := {| title := "Sheet"; _cells := ∅ |}.

Definition set_title (ws : Worksheet) (t : string) : Worksheet :=
  {| title := t; _cells := _cells ws |}.

(** [ws.cell(row=r, column=c, value=v)]: the cell is created, and bound
    unless [v] is [None]. *)
Definition cell (ws : Worksheet) (r c : Z) (v : pyval) : result Worksheet :=
  if (r <? 1) || (c <? 1) then Raise (ValueError BadCoordinate)
  else
    match v with
    | VNone =>
        let blank := {| data_type := TYPE_NUMERIC; value := VNone |} in
        Ok {| title := title ws;
              _cells := <[(r, c) := default blank (_cells ws !! (r, c))]> (_cells ws) |}
    | _ =>
        bound ← bind_value v;
        Ok {| title := title ws; _cells := <[(r, c) := bound]> (_cells ws) |}
    end.

End Openpyxl.

(** ** pandas *)

Module Pandas.
Import Py.

(** [lib.fast_unique_multiple_list_gen(gen, sort=False)]: the keys of all
    dicts, each once, in the order first met. *)
Definition add_unique (uniques : list string) (k : string) : list string :=
  if bool_decide (k ∈ uniques) then uniques else uniques ++ [k].

Definition fast_unique_multiple_list_gen (gen : list (list string)) : list string :=
  foldl (foldl add_unique) [] gen.

(** One column of [lib.dicts_to_array(data, columns)]: a key a dict lacks
    reads as NaN. *)
Definition dicts_to_array (data : list (dict pyval)) (col : string) : list pyval :=
  map (fun row => get row col (VFloat nan)) data.

(** What [maybe_convert_objects] has met so far. *)
Record Seen := {
  null_ : bool; nan_ : bool; bool_ : bool; int_ : bool; float_ : bool;
  sint_ : bool; uint_ : bool; object_ : bool }.

Definition seen0 : Seen :=
  {| null_ := false; nan_ := false; bool_ := false; int_ := false;
     float_ := false; sint_ := false; uint_ := false; object_ := false |}.

Definition saw_null (s : Seen) : Seen :=
  {| null_ := true; nan_ := nan_ s; bool_ := bool_ s; int_ := int_ s;
     float_ := float_ s; sint_ := sint_ s; uint_ := uint_ s; object_ := object_ s |}.
Definition saw_nan (s : Seen) : Seen :=
  {| null_ := null_ s; nan_ := true; bool_ := bool_ s; int_ := int_ s;
     float_ := float_ s; sint_ := sint_ s; uint_ := uint_ s; object_ := object_ s |}.
Definition saw_bool (s : Seen) : Seen :=
  {| null_ := null_ s; nan_ := nan_ s; bool_ := true; int_ := int_ s;
     float_ := float_ s; sint_ := sint_ s; uint_ := uint_ s; object_ := object_ s |}.
Definition saw_float (s : Seen) : Seen :=
  {| null_ := null_ s; nan_ := nan_ s; bool_ := bool_ s; int_ := int_ s;
     float_ := true; sint_ := sint_ s; uint_ := uint_ s; object_ := object_ s |}.
Definition saw_object (s : Seen) : Seen :=
  {| null_ := null_ s; nan_ := nan_ s; bool_ := bool_ s; int_ := int_ s;
     float_ := float_ s; sint_ := sint_ s; uint_ := uint_ s; object_ := true |}.
Definition set_int (s : Seen) : Seen :=
  {| null_ := null_ s; nan_ := nan_ s; bool_ := bool_ s; int_ := true;
     float_ := float_ s; sint_ := sint_ s; uint_ := uint_ s; object_ := object_ s |}.

Definition oINT64_MIN : Z := - 2 ^ 63.
Definition oINT64_MAX : Z := 2 ^ 63 - 1.
Definition oUINT64_MAX : Z := 2 ^ 64 - 1.

(** [Seen.saw_int]. *)
Definition saw_int (s : Seen) (val : Z) : Seen :=
  {| null_ := null_ s; nan_ := nan_ s; bool_ := bool_ s; int_ := true;
     float_ := float_ s;
     sint_ := sint_ s || (oINT64_MIN <=? val) && (val <? 0);
     uint_ := uint_ s || (oINT64_MAX <? val) && (val <=? oUINT64_MAX);
     object_ := object_ s |}.

(** The loop of [maybe_convert_objects].  Text ends it at once; so does an
    int that no 64-bit array can hold, or that mixes the signed and the
    unsigned range, unless a [None] came before it.  Every int is first
    stored as a double, which can overflow. *)
Fixpoint scan_objects (seen : Seen) (objects : list pyval) : result Seen :=
  match objects with
  | [] => Ok seen
  | val :: rest =>
      match val with
      | VNone => scan_objects (saw_null seen) rest
      | VFloat x =>
          if is_nan x then scan_objects (saw_nan seen) rest
          else scan_objects (saw_float seen) rest
      | VBool _ => scan_objects (saw_bool seen) rest
      | VInt n =>
          _ ← float_of_int n;
          let seen := set_int seen in
          if negb (null_ seen) then
            let seen := saw_int seen n in
            if uint_ seen && sint_ seen || (oUINT64_MAX <? n) || (n <? oINT64_MIN)
            then Ok (saw_object seen)
            else scan_objects seen rest
          else scan_objects seen rest
      | VStr _ => Ok (saw_object seen)
      end
  end.

Definition numeric_ (s : Seen) : bool := float_ s || int_ s.
Definition is_bool_or_na (s : Seen) : bool :=
  bool_ s && negb (numeric_ s || object_ s).
Definition is_bool (s : Seen) : bool :=
  is_bool_or_na s && negb (nan_ s || null_ s).

Inductive ndarray :=
| bool_array (xs : list bool)
| int64_array (xs : list Z)
| uint64_array (xs : list Z)
| float64_array (xs : list spec_float)
| object_array (xs : list pyval).

(** The slots of the typed arrays the loop fills next to [objects]; a
    slot of the wrong type is never read. *)
Definition bool_slot (v : pyval) : bool :=
  match v with VBool b => b | _ => false end.
Definition int_slot (v : pyval) : Z :=
  match v with VInt n => n | _ => 0 end.
Definition float_slot (v : pyval) : spec_float :=
  match v with
  | VNone => nan
  | VFloat x => x
  | VInt n => binary_normalize prec emax n 0 false
  | _ => S754_zero false
  end.

(** [lib.maybe_convert_objects(objects)] with its defaults. *)
Definition maybe_convert_objects (objects : list pyval) : result ndarray :=
  seen ← scan_objects seen0 objects;
  if bool_ seen && is_bool seen then Ok (bool_array (map bool_slot objects))
  else if bool_ seen || object_ seen then Ok (object_array objects)
  else if null_ seen || nan_ seen then
    if float_ seen || int_ seen || uint_ seen || nan_ seen
    then Ok (float64_array (map float_slot objects))
    else Ok (object_array objects)
  else if float_ seen then Ok (float64_array (map float_slot objects))
  else if int_ seen then
    if uint_ seen then Ok (uint64_array (map int_slot objects))
    else Ok (int64_array (map int_slot objects))
  else Ok (object_array objects).

(** Iterating a column gives Python scalars back. *)
Definition tolist (a : ndarray) : list pyval :=
  match a with
  | bool_array xs => map VBool xs
  | int64_array xs | uint64_array xs => map VInt xs
  | float64_array xs => map VFloat xs
  | object_array xs => xs
  end.

Definition head_array (n : nat) (a : ndarray) : ndarray :=
  match a with
  | bool_array xs => bool_array (take n xs)
  | int64_array xs => int64_array (take n xs)
  | uint64_array xs => uint64_array (take n xs)
  | float64_array xs => float64_array (take n xs)
  | object_array xs => object_array (take n xs)
  end.

Record DataFrame := {
  columns : list string;
  arrays : list ndarray;
  index : nat }.

(** [pd.DataFrame(data)] for a list of dicts: the columns are the keys
    met, each column is converted on its own.  No dict, no column. *)
Definition DataFrame_of_dicts (data : list (dict pyval)) : result DataFrame :=
  let columns := fast_unique_multiple_list_gen (map keys data) in
  arrays ← mapM (fun col => maybe_convert_objects (dicts_to_array data col)) columns;
  Ok {| columns := columns; arrays := arrays; index := length data |}.

Definition len (df : DataFrame) : Z := Z.of_nat (index df).

(** [zip] over all the arrays: as many tuples as the shortest array has
    entries, and none when there is no array. *)
Fixpoint zip_star {A} (arrays : list (list A)) : list (list A) :=
  match arrays with
  | [] => []
  | [a] => map (fun x => [x]) a
  | a :: rest => zip_with cons a (zip_star rest)
  end.

(** [df.itertuples(index=False)]. *)
Definition itertuples (df : DataFrame) : list (list pyval) :=
  zip_star (map tolist (arrays df)).

(** [df.head()]: the first five rows. *)
Definition head (df : DataFrame) : DataFrame :=
  {| columns := columns df;
     arrays := map (head_array 5) (arrays df);
     index := Nat.min 5 (index df) |}.

End Pandas.

(** ** The script *)

Module App.
Import Py Openpyxl Pandas.

Abbreviation bytes := (list Byte.byte).

(** The codec: [load_workbook(uploaded_file, data_only=True)] up to
    [wb.worksheets], and [out_wb.save(output)] up to the buffer. *)
Class Codec := {
  load_workbook : bytes -> result workbook;
  save : Worksheet -> result bytes }.

(** What the page shows, call by call.  The static header of the page
    (title, logo, uploader) is left out. *)
Inductive message :=
| Reading
| Found (sheet_count : Z)
| Extracted (records sheet_count : Z)
| Creating.

Inductive notice :=
| EnsureFormat
| PleaseUpload.

Inductive ui_event :=
| st_status
| st_write (msg : message)
| st_progress (value : Q)
| status_update
| st_subheader
| st_dataframe (df : DataFrame)
| st_download_button (data : bytes)
| st_error (e : exn)
| st_info (msg : notice).

(** A run of script code: what it has shown, and its result or the
    exception that ended it. *)
Definition script (A : Type) : Type := list ui_event * result A.

#[export] Instance script_ret : MRet script := fun A a => ([], Ok a).
#[export] Instance script_bind : MBind script :=
  fun A B f m =>
    match m with
    | (shown, Ok a) => let '(more, r) := f a in (shown ++ more, r)
    | (shown, Raise e) => (shown, Raise e)
    end.

Definition lift {A} (r : result A) : script A := ([], r).
Definition show (e : ui_event) : script unit := ([e], Ok tt).

(** [st.progress(value)] and [progress_bar.progress(value)]: a fraction
    outside [0, 1] is refused. *)
Definition progress (value : Q) : script unit :=
  if Qle_bool 0 value && Qle_bool value 1 then show (st_progress value)
  else lift (Raise StreamlitAPIException).

(** Lines 30-65. *)
Definition cell_map : list (string * (Z * Z)) :=
  [ ("Refrigerant Qty (g)", (16, 2));
    ("EEV", (7, 2));
    ("Test Condition", (2, 2));
    ("Comp RPM/Hz", (4, 2));
    ("IDU RPM", (5, 2));
    ("ODU RPM", (6, 2));
    ("ID DBT", (9, 2));
    ("ID WBT", (10, 2));
    ("OD DBT", (11, 2));
    ("OD WBT", (12, 2));
    ("Suction Pressure (Bar)", (19, 2));
    ("Cond In Pressure (Bar)", (20, 2));
    ("Cond Out Pressure (Bar)", (21, 2));
    ("Suction Sat T (°C)", (19, 5));
    ("Cond in Sat T (°C)", (20, 5));
    ("Cond out Sat T (°C)", (21, 5));
    ("Temp Compressor in (°C)", (23, 2));
    ("Temp Condenser in (°C)", (24, 2));
    ("Temp Condenser out (°C)", (25, 2));
    ("Temp Evaporator out (°C)", (26, 2));
    ("SH (Evaporator) (°C)", (23, 5));
    ("SH (Suction) (°C)", (24, 5));
    ("SC (°C)", (25, 5));
    ("Power Consumption (W)", (29, 2));
    ("Enthalpy Evap In (kJ/kg)", (31, 2));
    ("Enthalpy Evap Out (kJ/kg)", (32, 2));
    ("∆H Evap (kJ/kg)", (33, 2));
    ("Enthalpy Cond In (kJ/kg)", (34, 2));
    ("Cond Enthalpy Out (kJ/kg)", (35, 2));
    ("∆H Cond (kJ/kg)", (36, 2));
    ("Mass Flow (kg/hr)", (38, 2));
    ("Cooling Cap (W)", (40, 2));
    ("Cooling Cap (Btu/hr)", (40, 4));
    ("COP (W/W)", (45, 2)) ].

(** Lines 75-84: the value stored under [header]. *)
Definition field_value (ws : worksheet) (header : string) (r c : Z) : result pyval :=
  cell_value ← cell_value ws r c;
  if String.eqb header "Refrigerant Qty (g)" then
    match cell_value with
    | VStr s => n ← int (removesuffix s "GM"); Ok (VInt n)
    | _ => Ok cell_value
    end
  else Ok cell_value.

(** Lines 74-84: [for header, (r, c) in cell_map.items()], over the
    entries still to come. *)
Fixpoint fill_row (ws : worksheet) (entries : list (string * (Z * Z)))
    (row_data : dict pyval) : result (dict pyval) :=
  match entries with
  | [] => Ok row_data
  | (header, (r, c)) :: rest =>
      v ← field_value ws header r c;
      fill_row ws rest (setitem row_data header v)
  end.

(** Lines 72-87: [for i, ws in enumerate(wb.worksheets)], over the
    worksheets still to come. *)
Fixpoint extract_loop (sheet_count i : Z) (worksheets : workbook)
    (records : list (dict pyval)) : script (list (dict pyval)) :=
  match worksheets with
  | [] => mret records
  | ws :: rest =>
      row_data ← lift (fill_row ws cell_map []);
      let records := records ++ [row_data] in
      value ← lift (truediv (i + 1) sheet_count);
      _ ← progress value;
      extract_loop sheet_count (i + 1) rest records
  end.

(** Lines 99-100 and 105-106: one row of the output sheet, from column
    [col_idx] on. *)
Fixpoint write_row (ws_out : Worksheet) (row_idx col_idx : Z)
    (values : list pyval) : result Worksheet :=
  match values with
  | [] => Ok ws_out
  | cell_value :: rest =>
      ws_out ← cell ws_out row_idx col_idx cell_value;
      write_row ws_out row_idx (col_idx + 1) rest
  end.

(** Lines 104-106: the data rows, from row [row_idx] on. *)
Fixpoint write_rows (ws_out : Worksheet) (row_idx : Z)
    (records : list (list pyval)) : result Worksheet :=
  match records with
  | [] => Ok ws_out
  | record :: rest =>
      ws_out ← write_row ws_out row_idx 1 record;
      write_rows ws_out (row_idx + 1) rest
  end.

(** Lines 68-91: the extraction loop and the table. *)
Definition consolidate (wb : workbook) : script DataFrame :=
  let sheet_count := Z.of_nat (length wb) in
  _ ← show (st_write (Found sheet_count));
  _ ← progress 0;
  records ← extract_loop sheet_count 0 wb [];
  df ← lift (DataFrame_of_dicts records);
  _ ← show (st_write (Extracted (len df) sheet_count));
  mret df.

(** Lines 94-106: the output sheet. *)
Definition emit (df : DataFrame) : script Worksheet :=
  let ws_out := set_title active "Consolidated Data" in
  ws_out ← lift (write_row ws_out 1 1 (VStr <$> columns df));
  _ ← show (st_write Creating);
  lift (write_rows ws_out 2 (itertuples df)).

Section Run.
Context `{Codec}.

(** Lines 22-126: the body of the [try]. *)
Definition try_body (uploaded_file : bytes) : script unit :=
  wb ← lift (load_workbook uploaded_file);
  _ ← show st_status;
  _ ← show (st_write Reading);
  df ← consolidate wb;
  ws_out ← emit df;
  output ← lift (save ws_out);
  _ ← show status_update;
  _ ← show st_subheader;
  _ ← show (st_dataframe (head df));
  show (st_download_button output).

(** Lines 19-133. *)
Definition app (uploaded_file : option bytes) : list ui_event :=
  match uploaded_file with
  | Some f =>
      match try_body f with
      | (shown, Ok _) => shown
      | (shown, Raise e) => shown ++ [st_error e; st_info EnsureFormat]
      end
  | None => [st_info PleaseUpload]
  end.

End Run.

End App.

(** ** Vocabulary of the statements *)

Module Spec.
Import Py Openpyxl Pandas App.

(** The characters a base-10 integer literal is made of. *)
Definition is_digit (c : ascii) : bool :=
  match digit_value c with Some _ => true | None => false end.
Definition is_sign (c : ascii) : bool :=
  Ascii.eqb c "+"%char || Ascii.eqb c "-"%char.

(** The number a run of decimal digits writes. *)
Definition decimal_value (ds : list ascii) : Z :=
  foldl (fun acc c => 10 * acc + default 0 (digit_value c)) 0 ds.

(** The quantity texts the specification names: [<integer>] and
    [<integer>GM], an integer being decimal digits after an optional
    minus sign. *)
Definition plain_integer (s : list ascii) : bool :=
  match s with
  | [] => false
  | c :: ds =>
      if Ascii.eqb c "-"%char
      then negb (bool_decide (ds = [])) && forallb is_digit ds
      else forallb is_digit s
  end.

Definition spec_quantity_text (s : string) : bool :=
  plain_integer (list_ascii_of_string s)
  || endswith s "GM" && plain_integer (list_ascii_of_string (removesuffix s "GM")).

Definition plain_integer_value (s : list ascii) : Z :=
  match s with
  | [] => 0
  | c :: ds => if Ascii.eqb c "-"%char then - decimal_value ds else decimal_value s
  end.

(** The field labels, in Field Map order. *)
Definition labels : list string := cell_map.*1.
#[global] Arguments labels : simpl never.

Definition quantity : string := "Refrigerant Qty (g)".

(** [extract(worksheet)]: the record of one worksheet, and its values
    alone. *)
Definition extract (ws : worksheet) : result (dict pyval) :=
  fill_row ws cell_map [].

Definition fields (ws : worksheet) : result (list pyval) :=
  mapM (fun '(header, (r, c)) => field_value ws header r c) cell_map.

(** The values of field number [j] over all worksheets. *)
Definition column (grid : list (list pyval)) (j : nat) : list pyval :=
  map (fun vs => default (VFloat nan) (vs !! j)) grid.

(** A mapped cell that is missing or blank. *)
Definition blank (ws : worksheet) (r c : Z) : Prop :=
  ws !! (r, c) = None ∨ ws !! (r, c) = Some VNone.

(** Two worksheets that agree on every mapped coordinate. *)
Definition agree (ws1 ws2 : worksheet) : Prop :=
  ∀ header r c, (header, (r, c)) ∈ cell_map → ws1 !! (r, c) = ws2 !! (r, c).

(** The three kinds of value of the specification, and booleans. *)
Inductive kind :=
| Empty
| Number
| Text
| Boolean.

Definition kind_of (v : pyval) : kind :=
  match v with
  | VNone => Empty
  | VInt _ | VFloat _ => Number
  | VStr _ => Text
  | VBool _ => Boolean
  end.

(** What a column of the frame hands back for a value put in. *)
Inductive pandas_image : pyval → pyval → Prop :=
| image_same v : pandas_image v v
| image_nan : pandas_image VNone (VFloat nan)
| image_float n x : float_of_int n = Ok x → pandas_image (VInt n) (VFloat x).

(** What the output sheet holds for an extracted value: its image in the
    frame, text cut at 32767 characters. *)
Inductive emitted_as : pyval → pyval → Prop :=
| emitted_none : emitted_as VNone VNone
| emitted_nan : emitted_as VNone (VFloat nan)
| emitted_bool b : emitted_as (VBool b) (VBool b)
| emitted_int n : emitted_as (VInt n) (VInt n)
| emitted_int_float n x : float_of_int n = Ok x → emitted_as (VInt n) (VFloat x)
| emitted_float x : emitted_as (VFloat x) (VFloat x)
| emitted_str s : emitted_as (VStr s) (VStr (substring 0 (Z.to_nat 32767) s)).

(** Invariants of the column scan: flags are only ever raised, and each
    kind of entry leaves its flag behind. *)
Definition seen_le (s s' : Seen) : Prop :=
  (null_ s = true → null_ s' = true) ∧ (nan_ s = true → nan_ s' = true)
  ∧ (bool_ s = true → bool_ s' = true) ∧ (int_ s = true → int_ s' = true)
  ∧ (float_ s = true → float_ s' = true) ∧ (sint_ s = true → sint_ s' = true)
  ∧ (uint_ s = true → uint_ s' = true) ∧ (object_ s = true → object_ s' = true).

Definition noted (s : Seen) (v : pyval) : Prop :=
  match v with
  | VNone => null_ s = true
  | VBool _ => bool_ s = true
  | VInt n => int_ s = true ∧ ∃ x, float_of_int n = Ok x
  | VFloat x => if is_nan x then nan_ s = true else float_ s = true
  | VStr _ => False
  end.

(** A run that built the table [df] and the output sheet [ws_out]. *)
Definition run (wb : workbook) (df : DataFrame) (ws_out : Worksheet) : Prop :=
  (consolidate wb).2 = Ok df ∧ (emit df).2 = Ok ws_out.

(** The type openpyxl gives the cell of an emitted value: text that
    begins with "=" is taken for a formula, and the text of an error code
    for an error. *)
Definition written_type (v : pyval) : cell_type :=
  match v with
  | VNone | VInt _ | VFloat _ => TYPE_NUMERIC
  | VBool _ => TYPE_BOOL
  | VStr s =>
      if (1 <? String.length s)%nat && startswith_eq s then TYPE_FORMULA
      else if bool_decide (s ∈ ERROR_CODES) then TYPE_ERROR
      else TYPE_STRING
  end.

(** The value the output sheet holds at a coordinate. *)
Definition out_value (ws_out : Worksheet) (r c : Z) : option pyval :=
  value <$> _cells ws_out !! (r, c).

(** A worksheet filled cell by cell, in the order of the list. *)
Definition sheet_of (assignments : list ((Z * Z) * pyval)) : worksheet :=
  foldl (fun ws '(coordinate, v) => <[coordinate := v]> ws) ∅ assignments.

(** The events that hand a result to the user. *)
Definition delivers (e : ui_event) : bool :=
  match e with
  | st_dataframe _ | st_download_button _ => true
  | _ => false
  end.

Definition is_progress (e : ui_event) : Prop := ∃ q, e = st_progress q.

Definition is_error (e : ui_event) : bool :=
  match e with st_error _ => true | _ => false end.

(** An event that neither delivers a result nor reports an error. *)
Definition quiet (e : ui_event) : Prop := delivers e = false ∧ is_error e = false.

(** A codec that reads every upload as [wb] and writes nothing. *)
Definition fixed_codec (wb : workbook) : Codec :=
  {| load_workbook := fun _ => Ok wb; save := fun _ => Ok [] |}.

(** A codec that reads the empty upload as [wb1] and every other one as
    [wb2]. *)
Definition two_file_codec (wb1 wb2 : workbook) : Codec :=
  {| load_workbook := fun f => match f with [] => Ok wb1 | _ => Ok wb2 end;
     save := fun _ => Ok [] |}.

(** Two worksheets: valve opening 250 in the first, no cell at all in
    the second. *)
Definition two_sheets : workbook := [sheet_of [((7, 2), VInt 250)]; sheet_of []].

(** The table and the output sheet of the run over [two_sheets]. *)
Definition two_sheets_df : DataFrame :=
  match (consolidate two_sheets).2 with
  | Ok df => df
  | Raise _ => {| columns := []; arrays := []; index := 0 |}
  end.

Definition two_sheets_out : Worksheet :=
  match (emit two_sheets_df).2 with
  | Ok ws_out => ws_out
  | Raise _ => active
  end.

(** *** Statements of the specification that the script does not meet *)

(** Every emitted value has the kind of the value extracted. *)
Definition kinds_preserved (wb : workbook) : Prop :=
  ∀ df ws_out i ws j header r c x,
    run wb df ws_out → wb !! i = Some ws →
    cell_map !! j = Some (header, (r, c)) → field_value ws header r c = Ok x →
    ∃ y, out_value ws_out (2 + Z.of_nat i) (1 + Z.of_nat j) = Some y
         ∧ kind_of y = kind_of x.

(** A blank mapped cell is an empty cell of the output. *)
Definition blank_stays_empty (wb : workbook) : Prop :=
  ∀ df ws_out i ws j header r c,
    run wb df ws_out → wb !! i = Some ws →
    cell_map !! j = Some (header, (r, c)) → blank ws r c →
    out_value ws_out (2 + Z.of_nat i) (1 + Z.of_nat j) = Some VNone.

(** One row per worksheet, one column per field, one more row in the
    sheet. *)
Definition table_shape (wb : workbook) (df : DataFrame) (ws_out : Worksheet) : Prop :=
  index df = length wb
  ∧ length (columns df) = length cell_map
  ∧ ∀ r, (∃ c, is_Some (_cells ws_out !! (r, c)))
         ↔ 1 ≤ r ≤ 1 + Z.of_nat (length wb).

(** The schema without rows, and the header row alone. *)
Definition header_only (df : DataFrame) (ws_out : Worksheet) : Prop :=
  columns df = labels
  ∧ index df = 0%nat
  ∧ (∀ j h, labels !! j = Some h →
       out_value ws_out 1 (1 + Z.of_nat j) = Some (VStr h))
  ∧ (∀ r c, 2 ≤ r → _cells ws_out !! (r, c) = None).

(** *** Vocabulary of the further properties *)

(** The progress events of [n] worksheets, the first of them worksheet
    number [i] of [sheet_count]. *)
Definition progress_steps (sheet_count i : Z) (n : nat) : list ui_event :=
  map (fun k => st_progress (Qdiv (inject_Z (i + Z.of_nat k + 1)) (inject_Z sheet_count)))
      (seq 0 n).

(** The cells of a worksheet that the fields after the quantity are mapped
    to, as they are. *)
Definition raw_values (ws : worksheet) : list pyval :=
  map (fun '(_, (r, c)) => default VNone (ws !! (r, c))) (tail cell_map).

(** A value openpyxl accepts: text without control characters in its
    first 32767 characters, or anything that is not text. *)
Definition clean (v : pyval) : bool :=
  match v with
  | VStr s =>
      negb (existsb illegal_character
              (list_ascii_of_string (substring 0 (Z.to_nat 32767) s)))
  | _ => true
  end.

(** The exceptions of the script's own stages. *)
Definition from_int (e : exn) : Prop :=
  (∃ text, e = ValueError (InvalidLiteral text))
  ∨ (∃ digits, e = ValueError (ExceedsDigitLimit digits)).

Definition from_stages (e : exn) : Prop :=
  from_int e ∨ e = OverflowError ∨ (∃ text, e = IllegalCharacterError text).

(** Three worksheets: a quantity that parses, one that does not, and one
    more. *)
Definition three_sheets : workbook :=
  [sheet_of [((16, 2), VStr "1200GM")];
   sheet_of [((16, 2), VStr "1200KG")];
   sheet_of [((16, 2), VStr "900GM")]].

(** The values that keep a column of the frame a column of objects, and
    what the output sheet holds for a value written as it is. *)
Definition keeps_objects (v : pyval) : bool :=
  match v with VStr _ | VBool _ => true | _ => false end.

Definition as_written (v : pyval) : pyval :=
  match v with
  | VStr s => VStr (substring 0 (Z.to_nat 32767) s)
  | _ => v
  end.

(** One worksheet whose test condition carries a control character (BEL),
    and the table of the run over it. *)
Definition bell_sheets : workbook :=
  [sheet_of [((2, 2), VStr (String "007"%char "T1"))]].

Definition bell_df : DataFrame :=
  match (consolidate bell_sheets).2 with
  | Ok df => df
  | Raise _ => {| columns := []; arrays := []; index := 0 |}
  end.

(** [two_sheets] with a test condition added to the first worksheet, and
    the table and the output sheet of the run over it. *)
Definition noted_sheets : workbook :=
  [sheet_of [((7, 2), VInt 250); ((2, 2), VStr "T1")]; sheet_of []].

Definition noted_sheets_df : DataFrame :=
  match (consolidate noted_sheets).2 with
  | Ok df => df
  | Raise _ => {| columns := []; arrays := []; index := 0 |}
  end.

Definition noted_sheets_out : Worksheet :=
  match (emit noted_sheets_df).2 with
  | Ok ws_out => ws_out
  | Raise _ => active
  end.

(** Two worksheets with a quantity each, one as text and one as a number,
    and the table and the output sheet of the run over them. *)
Definition charged_sheets : workbook :=
  [sheet_of [((16, 2), VStr "1200GM")]; sheet_of [((16, 2), VInt 900)]].

Definition charged_sheets_df : DataFrame :=
  match (consolidate charged_sheets).2 with
  | Ok df => df
  | Raise _ => {| columns := []; arrays := []; index := 0 |}
  end.

Definition charged_sheets_out : Worksheet :=
  match (emit charged_sheets_df).2 with
  | Ok ws_out => ws_out
  | Raise _ => active
  end.

End Spec.

(** * Properties *)

(** ** Python *)

Module PyFacts.
Import Py.

Lemma bind_Ok {A B} (f : A → result B) (m : result A) (b : B) :
  m ≫= f = Ok b ↔ ∃ a, m = Ok a ∧ f a = Ok b.
Proof.
  destruct m as [a|e]; simpl.
  - split; [eauto | intros (a' & [= ->] & ?); done].
  - split; [done | intros (a' & ? & ?); done].
Qed.

Lemma mapM_Ok {A B} (f : A → result B) (l : list A) (k : list B) :
  mapM f l = Ok k ↔ Forall2 (λ x y, f x = Ok y) l k.
Proof.
  revert k. induction l as [|x l IH]; intros k; simpl.
  - split; [intros [= <-]; constructor | by inversion 1].
  - split.
    + intros (y & Hy & Hk)%bind_Ok.
      apply bind_Ok in Hk as (k' & Hk' & [= <-]).
      constructor; [done | by apply IH].
    + inversion 1 as [|? y ? k' Hy Hk']; subst.
      rewrite Hy. simpl. apply IH in Hk'. rewrite Hk'. done.
Qed.

Lemma mapM_ext_Forall2 {A B} (f g : A → result B) (l k : list A) :
  Forall2 (λ x y, f x = g y) l k → mapM f l = mapM g k.
Proof.
  induction 1 as [|x y l k Hxy _ IH]; simpl; [done|].
  by rewrite Hxy, IH.
Qed.

(** *** str *)



Lemma substring_all (t : string) : substring 0 (String.length t) t = t.
Proof. induction t as [|c t IH]; simpl; [done | by rewrite IH]. Qed.




(** Text that does not end with the suffix is left alone. *)
Lemma removesuffix_other (s t : string) :
  endswith s t = false → removesuffix s t = s.
Proof. intros Hs. unfold removesuffix. rewrite Hs. by rewrite andb_false_r. Qed.

(** *** int(str) *)

Lemma char_classes (c : ascii) :
  (Spec.is_digit c = true →
     isspace c = false ∧ Spec.is_sign c = false ∧ is_underscore c = false)
  ∧ (isspace c = true → Spec.is_sign c = false ∧ is_underscore c = false).
Proof.
  destruct c as [[] [] [] [] [] [] [] []]; vm_compute; intuition congruence.
Qed.







Lemma forallb_of_Forall {A} (f : A → bool) (l : list A) :
  Forall (λ x, f x = true) l ↔ forallb f l = true.
Proof.
  induction l as [|x l IH]; simpl; [done|].
  rewrite Forall_cons, andb_true_iff, IH. done.
Qed.


Lemma length_list_ascii (s : string) :
  length (list_ascii_of_string s) = String.length s.
Proof. induction s as [|c s IH]; simpl; [done | by rewrite IH]. Qed.

Lemma scan_digits_all (ds : list ascii) (acc : Z) (digits : nat) :
  forallb Spec.is_digit ds = true →
  scan_digits false acc digits ds
  = ScanEnd (foldl (λ acc c, 10 * acc + default 0 (digit_value c)) acc ds)
      (digits + length ds) [].
Proof.
  revert acc digits. induction ds as [|c ds IH]; intros acc digits; simpl.
  - intros _. by rewrite Nat.add_0_r.
  - intros [Hc Hds]%andb_true_iff.
    destruct (char_classes c) as [Hdigit _].
    destruct (Hdigit Hc) as (_ & _ & ->).
    unfold Spec.is_digit in Hc.
    destruct (digit_value c) as [d|]; [|done]. simpl.
    rewrite IH by done. f_equal. lia.
Qed.

(** Decimal digits, after an optional minus sign and within the digit
    limit, are read as the number they write. *)
Lemma int_plain_integer (text : string) :
  Spec.plain_integer (list_ascii_of_string text) = true →
  (String.length text ≤ int_max_str_digits)%nat →
  int text = Ok (Spec.plain_integer_value (list_ascii_of_string text)).
Proof.
  rewrite <- length_list_ascii. unfold int.
  generalize (Raise (A:=Z) (ValueError (InvalidLiteral text))) as invalid.
  destruct (list_ascii_of_string text) as [|c ds]; [done|].
  intros invalid. cbn [Spec.plain_integer Spec.plain_integer_value length].
  destruct (Ascii.eqb c "-") eqn:Hminus.
  - apply Ascii.eqb_eq in Hminus as ->.
    intros [Hne Hds]%andb_true_iff Hlen.
    destruct ds as [|d ds]; [done|]. clear Hne.
    change (skip_space ("-"%char :: d :: ds)) with ("-"%char :: d :: ds).
    change (take_sign ("-"%char :: d :: ds)) with (true, d :: ds).
    cbv iota beta.
    pose proof Hds as [Hd _]%andb_true_iff.
    destruct (char_classes d) as [Hdigit _].
    destruct (Hdigit Hd) as (_ & _ & ->).
    rewrite scan_digits_all by done.
    cbn [length Nat.add Nat.eqb skip_space].
    destruct (int_max_str_digits <? _)%nat eqn:Hlim;
      [apply Nat.ltb_lt in Hlim; simpl in *; lia | done].
  - intros Hds Hlen.
    pose proof Hds as [Hc _]%andb_true_iff.
    destruct (char_classes c) as [Hdigit _].
    destruct (Hdigit Hc) as (Hspace & Hsign & Hunder).
    cbn [skip_space]. rewrite Hspace.
    unfold Spec.is_sign in Hsign. apply orb_false_iff in Hsign as [Hplus _].
    cbn [take_sign]. rewrite Hplus, Hminus. cbv iota beta. rewrite Hunder.
    rewrite scan_digits_all by done.
    cbn [length Nat.add Nat.eqb skip_space].
    destruct (int_max_str_digits <? _)%nat eqn:Hlim;
      [apply Nat.ltb_lt in Hlim; simpl in *; lia | done].
Qed.

(** *** Plain integers and the suffix *)

Lemma substring_split (n : nat) (s : string) :
  (n ≤ String.length s)%nat →
  substring 0 n s +:+ substring n (String.length s - n) s = s.
Proof.
  revert n. induction s as [|c s IH]; intros [|n] Hn; simpl in *; try lia.
  - done.
  - by rewrite substring_all.
  - change (String c (substring 0 n s +:+ substring n (String.length s - n) s)
            = String c s).
    f_equal. apply IH. lia.
Qed.

Lemma endswith_inv (s t : string) :
  endswith s t = true → s = substring 0 (String.length s - String.length t) s +:+ t.
Proof.
  unfold endswith. intros [Hlen Heq]%andb_true_iff.
  apply Nat.leb_le in Hlen. apply String.eqb_eq in Heq.
  rewrite <- (substring_split (String.length s - String.length t) s) at 1 by lia.
  f_equal.
  replace (String.length s - (String.length s - String.length t))%nat
    with (String.length t) by lia.
  done.
Qed.

Lemma list_ascii_append (s t : string) :
  list_ascii_of_string (s +:+ t) = list_ascii_of_string s ++ list_ascii_of_string t.
Proof. induction s as [|c s IH]; simpl; [done | by rewrite IH]. Qed.

Lemma plain_integer_chars (l : list ascii) :
  Spec.plain_integer l = true →
  Forall (λ c, Spec.is_digit c = true ∨ c = "-"%char) l.
Proof.
  destruct l as [|c ds]; [done|]. cbn [Spec.plain_integer].
  destruct (Ascii.eqb c "-") eqn:Hc.
  - apply Ascii.eqb_eq in Hc as ->. intros [_ Hds%forallb_of_Forall]%andb_true_iff.
    constructor; [by right|]. eapply Forall_impl; [exact Hds|]. by left.
  - intros Hds%forallb_of_Forall. eapply Forall_impl; [exact Hds|]. by left.
Qed.

(** A plain integer does not end with the unit. *)
Lemma plain_integer_endswith (s : string) :
  Spec.plain_integer (list_ascii_of_string s) = true → endswith s "GM" = false.
Proof.
  intros Hplain%plain_integer_chars.
  destruct (endswith s "GM") eqn:Hend; [|done]. exfalso.
  apply endswith_inv in Hend. rewrite Hend, list_ascii_append in Hplain.
  apply Forall_app in Hplain as [_ Hgm]. simpl in Hgm.
  apply Forall_cons in Hgm as [[HG|HG] _]; [by vm_compute in HG | done].
Qed.

Lemma length_substring (n m : nat) (s : string) :
  (String.length (substring n m s) ≤ String.length s)%nat.
Proof.
  revert n m. induction s as [|c s IH]; intros [|n] [|m]; simpl; try lia.
  - specialize (IH 0%nat m). lia.
  - specialize (IH n 0%nat). lia.
  - specialize (IH n (S m)). lia.
Qed.

Lemma length_removesuffix (s t : string) :
  (String.length (removesuffix s t) ≤ String.length s)%nat.
Proof.
  unfold removesuffix. destruct (_ && _); [apply length_substring | done].
Qed.

End PyFacts.

(** ** pandas *)

Module PandasFacts.
Import Py Pandas Spec PyFacts.

#[local] Ltac flags :=
  unfold seen_le, saw_null, saw_nan, saw_bool, saw_float, saw_object, set_int,
    saw_int in *; simpl in *; intuition (auto with bool).

Lemma seen_le_refl (s : Seen) : seen_le s s.
Proof. flags. Qed.

(** A scan that ends without the object flag has met no text and has a
    flag for every entry. *)
Lemma scan_objects_noted (objects : list pyval) (s s' : Seen) :
  scan_objects s objects = Ok s' →
  seen_le s s' ∧ (object_ s' = false → Forall (noted s') objects).
Proof.
  revert s. induction objects as [|v objects IH]; intros s; simpl.
  - intros [= <-]. split; [apply seen_le_refl | by constructor].
  - destruct v as [|b|n|x|t].
    + intros [Hle Hall]%IH. split; [flags|].
      intros Hobj. constructor; [simpl; flags | auto].
    + intros [Hle Hall]%IH. split; [flags|].
      intros Hobj. constructor; [simpl; flags | auto].
    + intros (x & Hx & Hrest)%bind_Ok. revert Hrest.
      simpl. destruct (negb (null_ s)) eqn:Hnull.
      * destruct (_ || _ || _) eqn:Hbreak.
        -- intros [= <-]. split; [flags | done].
        -- intros [Hle Hall]%IH. split; [flags|].
           intros Hobj. constructor; [|auto].
           simpl. split; [flags | eauto].
      * intros [Hle Hall]%IH. split; [flags|].
        intros Hobj. constructor; [|auto].
        simpl. split; [flags | eauto].
    + destruct (is_nan x) eqn:Hnan; intros [Hle Hall]%IH; (split; [flags|]);
        intros Hobj; (constructor; [simpl; rewrite Hnan; flags | auto]).
    + intros [= <-]. split; [flags | done].
Qed.

(** The only way the conversion fails. *)
Lemma scan_objects_raises (objects : list pyval) (s : Seen) (e : exn) :
  scan_objects s objects = Raise e → e = OverflowError.
Proof.
  revert s. induction objects as [|v objects IH]; intros s; simpl; [done|].
  destruct v as [|b|n|x|t]; eauto.
  - unfold float_of_int. destruct (binary_normalize _ _ _ _ _); simpl;
      try (intros [= <-]; done);
      repeat (match goal with
              | |- context [if ?b then _ else _] => destruct b
              end); eauto; done.
  - destruct (is_nan x); eauto.
  - done.
Qed.

Lemma float_of_int_Ok (n : Z) (x : spec_float) :
  float_of_int n = Ok x → binary_normalize prec emax n 0 false = x.
Proof.
  unfold float_of_int. by destruct (binary_normalize _ _ _ _ _); intros [= <-].
Qed.

Lemma Forall2_image (P : pyval → Prop) (g : pyval → pyval) (objects : list pyval) :
  Forall P objects →
  (∀ v, P v → Spec.pandas_image v (g v)) →
  Forall2 Spec.pandas_image objects (map g objects).
Proof.
  intros Hall Hg. induction Hall as [|v l Hv _ IH]; simpl; constructor; auto.
Qed.

Lemma Forall2_image_same (objects : list pyval) :
  Forall2 Spec.pandas_image objects objects.
Proof. induction objects; constructor; [constructor | done]. Qed.

(** What a converted column gives back, entry by entry. *)
Lemma maybe_convert_objects_image (objects : list pyval) (a : ndarray) :
  maybe_convert_objects objects = Ok a →
  Forall2 Spec.pandas_image objects (tolist a).
Proof.
  unfold maybe_convert_objects.
  intros (seen & [_ Hnoted]%scan_objects_noted & Hresult)%bind_Ok.
  revert Hresult. unfold is_bool, is_bool_or_na, numeric_.
  destruct seen as [null nan boolean i f si ui obj]; simpl in *.
  destruct null, nan, boolean, i, f, ui, obj; simpl;
    intros [= <-]; simpl; rewrite ?map_map;
    try apply Forall2_image_same;
    (apply (Forall2_image _ _ _ (Hnoted eq_refl));
     intros [|b|n|x|t]; simpl; try (destruct (is_nan x)); try done;
     try (intros [? [y Hy]]; try done; rewrite ?(float_of_int_Ok _ _ Hy));
     by constructor).
Qed.

Lemma map_noted (P : pyval → Prop) (g : pyval → pyval) (objects : list pyval) :
  Forall P objects → (∀ v, P v → g v = v) → map g objects = objects.
Proof.
  intros Hall Hg. induction Hall as [|v l Hv _ IH]; simpl; [done|].
  by rewrite Hg, IH.
Qed.

(** Only a float64 column changes what was put in. *)
Lemma maybe_convert_objects_tolist (objects : list pyval) (a : ndarray) :
  maybe_convert_objects objects = Ok a →
  (∃ xs, a = float64_array xs) ∨ tolist a = objects.
Proof.
  unfold maybe_convert_objects.
  intros (seen & [_ Hnoted]%scan_objects_noted & Hresult)%bind_Ok.
  revert Hresult. unfold is_bool, is_bool_or_na, numeric_.
  destruct seen as [null nan boolean i f si ui obj]; simpl in *.
  destruct null, nan, boolean, i, f, ui, obj; simpl;
    intros [= <-]; simpl; rewrite ?map_map; eauto; right;
    (apply (map_noted _ _ _ (Hnoted eq_refl));
     intros [|b|n|x|t]; simpl; try (destruct (is_nan x)); try done;
     by intros [? _]).
Qed.

Lemma maybe_convert_objects_raises (objects : list pyval) (e : exn) :
  maybe_convert_objects objects = Raise e → e = OverflowError.
Proof.
  unfold maybe_convert_objects.
  destruct (scan_objects seen0 objects) as [seen|e'] eqn:Hscan; simpl.
  - repeat (match goal with
            | |- context [if ?b then _ else _] => destruct b
            end); done.
  - intros [= <-]. by eapply scan_objects_raises.
Qed.

Lemma maybe_convert_objects_length (objects : list pyval) (a : ndarray) :
  maybe_convert_objects objects = Ok a → length (tolist a) = length objects.
Proof.
  intros Ha%maybe_convert_objects_image. symmetry. by eapply Forall2_length.
Qed.

(** *** The columns of the frame *)

Lemma foldl_add_unique_fresh (acc ks : list string) :
  NoDup (acc ++ ks) → foldl add_unique acc ks = acc ++ ks.
Proof.
  revert acc. induction ks as [|k ks IH]; intros acc Hnd; simpl.
  - by rewrite app_nil_r.
  - unfold add_unique at 2. rewrite bool_decide_eq_false_2.
    + rewrite IH by (by rewrite <- app_assoc). by rewrite <- app_assoc.
    + apply NoDup_app in Hnd as (_ & Hdisj & _). intros Hk.
      apply (Hdisj k Hk). by left.
Qed.

Lemma foldl_add_unique_known (acc ks : list string) :
  ks ⊆ acc → foldl add_unique acc ks = acc.
Proof.
  induction ks as [|k ks IH]; intros Hsub; simpl; [done|].
  unfold add_unique at 2. rewrite bool_decide_eq_true_2.
  - apply IH. intros x Hx. apply Hsub. by right.
  - apply Hsub. by left.
Qed.

Lemma fast_unique_uniform (ks : list string) (gen : list (list string)) :
  NoDup ks → gen ≠ [] → Forall (λ l, l = ks) gen →
  fast_unique_multiple_list_gen gen = ks.
Proof.
  intros Hnd Hgen Hall. unfold fast_unique_multiple_list_gen.
  destruct Hall as [|? gen -> Hall]; [done|]. simpl.
  rewrite (foldl_add_unique_fresh [] ks) by done. simpl. clear Hgen.
  induction Hall as [|? gen -> _ IH]; simpl; [done|].
  by rewrite foldl_add_unique_known.
Qed.

Lemma get_zip (ks : list string) (vs : list pyval) (j : nat) (k : string)
    (v dflt : pyval) :
  NoDup ks → ks !! j = Some k → vs !! j = Some v → get (zip ks vs) k dflt = v.
Proof.
  revert vs j. induction ks as [|k' ks IH]; intros vs j Hnd Hk Hv; [done|].
  destruct vs as [|v' vs]; [by destruct j|]. simpl.
  apply NoDup_cons in Hnd as [Hk' Hnd].
  destruct j as [|j]; simpl in *.
  - injection Hk as ->. injection Hv as ->. by rewrite String.eqb_refl.
  - destruct (String.eqb_spec k' k) as [->|_].
    + exfalso. apply Hk'. by eapply list_elem_of_lookup_2.
    + eauto.
Qed.

(** The frame of records that all carry the keys [ks], in that order. *)
Lemma DataFrame_of_dicts_uniform (ks : list string) (data : list (dict pyval))
    (df : DataFrame) :
  NoDup ks → data ≠ [] → Forall (λ d, keys d = ks) data →
  DataFrame_of_dicts data = Ok df →
  columns df = ks ∧ index df = length data
  ∧ Forall2 (λ k a, maybe_convert_objects (dicts_to_array data k) = Ok a)
      ks (arrays df).
Proof.
  intros Hnd Hdata Hkeys. unfold DataFrame_of_dicts.
  rewrite (fast_unique_uniform ks).
  - intros (arrays & Harrays%mapM_Ok & [= <-])%bind_Ok. done.
  - done.
  - by destruct data.
  - by apply Forall_fmap.
Qed.

Lemma DataFrame_of_dicts_raises (data : list (dict pyval)) (e : exn) :
  DataFrame_of_dicts data = Raise e → e = OverflowError.
Proof.
  unfold DataFrame_of_dicts.
  generalize (fast_unique_multiple_list_gen (map keys data)) as cols.
  intros cols.
  destruct (mapM _ cols) as [arrays|e'] eqn:Hm; simpl; [done|].
  intros [= <-]. revert Hm.
  induction cols as [|col cols IH]; simpl; [done|].
  destruct (maybe_convert_objects _) as [a|e''] eqn:Ha; simpl.
  - destruct (mapM _ cols); simpl; [done | auto].
  - intros [= <-]. by eapply maybe_convert_objects_raises.
Qed.

(** *** Rows *)

Lemma zip_star_lookup {A} (arrays : list (list A)) (i : nat) :
  arrays ≠ [] → zip_star arrays !! i = mapM (λ a, a !! i) arrays.
Proof.
  induction arrays as [|a arrays IH]; [done|]. intros _.
  destruct arrays as [|b arrays].
  - simpl. rewrite list_lookup_fmap. by destruct (a !! i).
  - change (zip_star (a :: b :: arrays))
      with (zip_with cons a (zip_star (b :: arrays))).
    rewrite lookup_zip_with, IH by done. done.
Qed.

Lemma itertuples_lookup (df : DataFrame) (i : nat) (row : list pyval) :
  arrays df ≠ [] →
  itertuples df !! i = Some row
  ↔ Forall2 (λ a x, tolist a !! i = Some x) (arrays df) row.
Proof.
  intros Hne. unfold itertuples.
  rewrite zip_star_lookup by (by destruct (arrays df)).
  rewrite mapM_Some, Forall2_fmap_l. done.
Qed.

Lemma length_zip_star {A} (arrays : list (list A)) (n : nat) :
  arrays ≠ [] → Forall (λ a, length a = n) arrays → length (zip_star arrays) = n.
Proof.
  induction arrays as [|a arrays IH]; [done|]. intros _ Hall.
  apply Forall_cons in Hall as [Ha Hall].
  destruct arrays as [|b arrays].
  - simpl. by rewrite length_map.
  - change (zip_star (a :: b :: arrays))
      with (zip_with cons a (zip_star (b :: arrays))).
    rewrite length_zip_with, IH by done. lia.
Qed.

(** *** Columns that stay as they are *)

Lemma scan_objects_blank (objects : list pyval) (s : Seen) :
  Forall (λ v, v = VNone) objects →
  scan_objects s objects = Ok (if objects is [] then s else saw_null s).
Proof.
  intros Hall. revert s. induction Hall as [|v l -> _ IH]; intros s; [done|].
  simpl. rewrite IH. by destruct l.
Qed.

(** A column of blanks only stays a column of blanks. *)
Lemma maybe_convert_objects_blank (objects : list pyval) :
  Forall (λ v, v = VNone) objects →
  maybe_convert_objects objects = Ok (object_array objects).
Proof.
  intros Hall. unfold maybe_convert_objects.
  rewrite scan_objects_blank by done. by destruct objects.
Qed.

End PandasFacts.

(** ** openpyxl *)

Module OpenpyxlFacts.
Import Py Openpyxl App PyFacts.

Lemma bind_value_raises (v : pyval) (e : exn) :
  bind_value v = Raise e → ∃ text, e = IllegalCharacterError text.
Proof.
  destruct v as [| | | |s]; simpl; try done.
  unfold check_string. destruct (existsb _ _); simpl.
  - intros [= <-]. eauto.
  - repeat (match goal with
            | |- context [if ?b then _ else _] => destruct b
            end); done.
Qed.

(** The value a bound cell holds. *)
Lemma bind_value_emitted (v : pyval) (cl : Cell) :
  bind_value v = Ok cl →
  match v with
  | VStr s => value cl = VStr (substring 0 (Z.to_nat 32767) s)
  | _ => value cl = v
  end.
Proof.
  destruct v as [| | | |s]; simpl; try (by intros [= <-]).
  unfold check_string. destruct (existsb _ _); simpl; [done|].
  repeat (match goal with
          | |- context [if ?b then _ else _] => destruct b
          end); by intros [= <-].
Qed.

Lemma bind_value_type (v : pyval) (cl : Cell) :
  bind_value v = Ok cl → data_type cl = Spec.written_type (value cl).
Proof.
  destruct v as [| | | |s]; simpl; try (by intros [= <-]).
  unfold check_string. destruct (existsb _ _); simpl; [done|].
  repeat (match goal with
          | |- context [if ?b then _ else _] => destruct b eqn:?
          end); intros [= <-]; simpl;
    repeat (match goal with H : _ = _ |- _ => rewrite H end); done.
Qed.

(** Writing to a coordinate the sheet does not have yet. *)
Lemma cell_fresh (ws ws' : Worksheet) (r c : Z) (v : pyval) :
  _cells ws !! (r, c) = None →
  cell ws r c v = Ok ws' →
  1 ≤ r ∧ 1 ≤ c ∧
  ∃ cl, bind_value v = Ok cl
        ∧ ws' = {| title := title ws; _cells := <[(r, c) := cl]> (_cells ws) |}.
Proof.
  intros Hfresh. unfold cell.
  destruct (r <? 1) eqn:Hr; [done|]. destruct (c <? 1) eqn:Hc; [done|]. simpl.
  apply Z.ltb_ge in Hr, Hc. rewrite Hfresh. simpl.
  destruct v as [| | | |s]; try (intros [= <-]; eauto 10).
  intros (cl & Hcl & [= <-])%bind_Ok. eauto 10.
Qed.

Lemma cell_raises (ws : Worksheet) (r c : Z) (v : pyval) (e : exn) :
  1 ≤ r → 1 ≤ c → cell ws r c v = Raise e → ∃ text, e = IllegalCharacterError text.
Proof.
  intros Hr Hc. unfold cell.
  rewrite (proj2 (Z.ltb_ge r 1)), (proj2 (Z.ltb_ge c 1)) by done. simpl.
  destruct v as [| | | |s]; try done.
  destruct (bind_value (VStr s)) as [cl|e'] eqn:Hb; simpl; [done|].
  intros [= <-]. by eapply bind_value_raises.
Qed.

(** One row, written into columns the sheet has nothing in. *)
Lemma write_row_fresh (values : list pyval) (ws ws' : Worksheet) (r c : Z) :
  (∀ c', c ≤ c' → _cells ws !! (r, c') = None) →
  write_row ws r c values = Ok ws' →
  title ws' = title ws
  ∧ (∀ j v, values !! j = Some v →
       ∃ cl, bind_value v = Ok cl ∧ _cells ws' !! (r, c + Z.of_nat j) = Some cl)
  ∧ (∀ r' c', ¬ (r' = r ∧ c ≤ c' < c + Z.of_nat (length values)) →
       _cells ws' !! (r', c') = _cells ws !! (r', c')).
Proof.
  revert ws c. induction values as [|v values IH]; intros ws c Hfresh; simpl.
  - intros [= <-]. split; [done|]. split; [by intros [|?] ?|done].
  - intros (ws1 & Hcell & Hrest)%bind_Ok.
    apply cell_fresh in Hcell as (Hr & Hc & cl & Hcl & ->);
      [|apply Hfresh; lia].
    apply IH in Hrest as (Htitle & Hcells & Hframe).
    + split; [done|]. split.
      * intros [|j] w Hw; simpl in *.
        -- injection Hw as <-. exists cl. split; [done|].
           rewrite Hframe by lia. simpl.
           rewrite Z.add_0_r. apply lookup_insert_eq.
        -- destruct (Hcells j w Hw) as (cl' & Hcl' & Hlook).
           exists cl'. split; [done|].
           by replace (c + Z.of_nat (S j)) with (c + 1 + Z.of_nat j) by lia.
      * intros r' c' Hout. rewrite Hframe by lia. simpl.
        apply lookup_insert_ne. intros [= <- <-]. lia.
    + intros c' Hc'. simpl. rewrite lookup_insert_ne by (intros [= ?]; lia).
      apply Hfresh. lia.
Qed.

(** The rows, written below everything the sheet has. *)
Lemma write_rows_fresh (records : list (list pyval)) (ws ws' : Worksheet) (r : Z) :
  (∀ r' c', r ≤ r' → _cells ws !! (r', c') = None) →
  write_rows ws r records = Ok ws' →
  title ws' = title ws
  ∧ (∀ i record j v, records !! i = Some record → record !! j = Some v →
       ∃ cl, bind_value v = Ok cl
             ∧ _cells ws' !! (r + Z.of_nat i, 1 + Z.of_nat j) = Some cl)
  ∧ (∀ r' c',
       ¬ (∃ i record, records !! i = Some record ∧ r' = r + Z.of_nat i
                      ∧ 1 ≤ c' < 1 + Z.of_nat (length record)) →
       _cells ws' !! (r', c') = _cells ws !! (r', c')).
Proof.
  revert ws r. induction records as [|record records IH]; intros ws r Hfresh; simpl.
  - intros [= <-]. split; [done|]. split; [by intros [|?] ? ? ? ?|done].
  - intros (ws1 & Hrow & Hrest)%bind_Ok.
    apply write_row_fresh in Hrow as (Htitle1 & Hcells1 & Hframe1);
      [|intros; apply Hfresh; lia].
    apply IH in Hrest as (Htitle & Hcells & Hframe).
    + split; [congruence|]. split.
      * intros [|i] rec j v Hrec Hv; simpl in *.
        -- injection Hrec as <-.
           destruct (Hcells1 j v Hv) as (cl & Hcl & Hlook).
           exists cl. split; [done|].
           rewrite Z.add_0_r, Hframe; [done|].
           intros (i & rec & _ & ? & _). lia.
        -- destruct (Hcells i rec j v Hrec Hv) as (cl & Hcl & Hlook).
           exists cl. split; [done|].
           by replace (r + Z.of_nat (S i)) with (r + 1 + Z.of_nat i) by lia.
      * intros r' c' Hout. rewrite Hframe, Hframe1; [done| |].
        -- intros [-> Hc']. apply Hout. exists 0%nat, record.
           split; [done|]. split; lia.
        -- intros (i & rec & Hrec & -> & Hc'). apply Hout.
           exists (S i), rec. split; [done|]. split; lia.
    + intros r' c' Hr'. rewrite Hframe1 by lia. apply Hfresh. lia.
Qed.

End OpenpyxlFacts.

(** ** The script *)

Module AppFacts.
Import Py Openpyxl Pandas App Spec PyFacts PandasFacts OpenpyxlFacts.

(** *** The Field Map *)

Lemma NoDup_labels : NoDup labels.
Proof. apply (bool_decide_unpack _). by vm_compute. Qed.

Lemma length_labels : length labels = 34%nat.
Proof. done. Qed.

Lemma cell_map_coordinates (header : string) (r c : Z) :
  (header, (r, c)) ∈ cell_map → 1 ≤ r ∧ 1 ≤ c.
Proof.
  intros Hin.
  assert (Forall (λ '(_, (r, c)), 1 ≤ r ∧ 1 ≤ c) cell_map) as Hall
    by (repeat constructor; lia).
  by apply (proj1 (Forall_forall _ _) Hall _ Hin).
Qed.

(** *** Running a script *)

Lemma script_bind_snd {A B} (m : script A) (f : A → script B) :
  (m ≫= f).2 = match m.2 with Ok a => (f a).2 | Raise e => Raise e end.
Proof. destruct m as [shown [a|e]]; simpl; [by destruct (f a) | done]. Qed.

Lemma script_bind_fst {A B} (m : script A) (f : A → script B) :
  (m ≫= f).1 = m.1 ++ match m.2 with Ok a => (f a).1 | Raise e => [] end.
Proof.
  destruct m as [shown [a|e]]; simpl; [by destruct (f a) | by rewrite app_nil_r].
Qed.

(** *** One worksheet *)

Lemma setitem_fresh {V} (d : dict V) (k : string) (v : V) :
  k ∉ keys d → setitem d k v = d ++ [(k, v)].
Proof.
  induction d as [|[k' v'] d IH]; simpl; [done|].
  intros Hk. apply not_elem_of_cons in Hk as [Hne Hk].
  rewrite (proj2 (String.eqb_neq k' k)) by done. by rewrite IH.
Qed.

Lemma fill_row_mapM (ws : worksheet) (entries : list (string * (Z * Z)))
    (row_data : dict pyval) :
  NoDup (keys row_data ++ entries.*1) →
  fill_row ws entries row_data
  = vs ← mapM (λ '(header, (r, c)), field_value ws header r c) entries;
    Ok (row_data ++ zip entries.*1 vs).
Proof.
  revert row_data. induction entries as [|[header [r c]] entries IH];
    intros row_data Hnd; simpl.
  - by rewrite app_nil_r.
  - destruct (field_value ws header r c) as [v|e]; simpl; [|done].
    rewrite IH.
    + destruct (mapM _ entries) as [vs|e]; simpl; [|done].
      rewrite setitem_fresh, <- app_assoc; [done|].
      apply NoDup_app in Hnd as (_ & Hdisj & _). intros Hk.
      apply (Hdisj _ Hk). by left.
    + rewrite setitem_fresh.
      * unfold keys in *. rewrite fmap_app, <- app_assoc. done.
      * apply NoDup_app in Hnd as (_ & Hdisj & _). intros Hk.
        apply (Hdisj _ Hk). by left.
Qed.

(** The record of a worksheet pairs the labels with the field values. *)
Lemma extract_fields (ws : worksheet) :
  extract ws = vs ← fields ws; Ok (zip labels vs).
Proof. unfold extract. rewrite fill_row_mapM; [done | apply NoDup_labels]. Qed.

Lemma field_value_raises (ws : worksheet) (header : string) (r c : Z) (e : exn) :
  field_value ws header r c = Raise e → ∃ why, e = ValueError why.
Proof.
  unfold field_value, cell_value.
  destruct (_ || _); simpl; [intros [= <-]; eauto|].
  destruct (String.eqb _ _); [|done].
  destruct (default VNone _) as [| | | |s]; try done.
  unfold int. destruct (take_sign _) as [negative l].
  repeat (match goal with
          | |- context [match ?x with _ => _ end] => destruct x
          end; simpl; try done; try (intros [= <-]; eauto)).
Qed.

Lemma fields_raises (ws : worksheet) (e : exn) :
  fields ws = Raise e → ∃ why, e = ValueError why.
Proof.
  unfold fields. induction cell_map as [|[header [r c]] entries IH]; simpl; [done|].
  destruct (field_value ws header r c) as [v|e'] eqn:Hv; simpl.
  - destruct (mapM _ entries); simpl; [done | auto].
  - intros [= <-]. by eapply field_value_raises.
Qed.

Lemma fields_length (ws : worksheet) (vs : list pyval) :
  fields ws = Ok vs → length vs = 34%nat.
Proof. intros Hvs%mapM_Ok%Forall2_length. by rewrite <- Hvs. Qed.

(** Only the mapped cells matter. *)
Lemma fill_row_agree (ws1 ws2 : worksheet) (entries : list (string * (Z * Z)))
    (row_data : dict pyval) :
  (∀ header r c, (header, (r, c)) ∈ entries → ws1 !! (r, c) = ws2 !! (r, c)) →
  fill_row ws1 entries row_data = fill_row ws2 entries row_data.
Proof.
  revert row_data. induction entries as [|[header [r c]] entries IH];
    intros row_data Hagree; simpl; [done|].
  assert (field_value ws1 header r c = field_value ws2 header r c) as ->.
  { unfold field_value, cell_value. rewrite (Hagree header r c); [done | by left]. }
  destruct (field_value ws2 header r c); simpl; [|done].
  apply IH. intros h r' c' Hin. apply (Hagree h). by right.
Qed.

(** *** The extraction loop *)

Lemma progress_fraction (a b : Z) :
  0 ≤ a ≤ b → 0 < b →
  Qle_bool 0 (Qdiv (inject_Z a) (inject_Z b))
  && Qle_bool (Qdiv (inject_Z a) (inject_Z b)) 1 = true.
Proof.
  intros Ha Hb. destruct b as [|p|p]; try lia.
  unfold Qle_bool, Qdiv, Qmult, Qinv, inject_Z. simpl.
  apply andb_true_iff. split; apply Z.leb_le; lia.
Qed.

(** With [i] worksheets done and the rest still to come, the loop ends
    with the records of all of them, or with the first failure of
    [extract]; the division and the progress bar never fail. *)
Lemma extract_loop_result (worksheets : workbook) (sheet_count i : Z)
    (records : list (dict pyval)) :
  0 ≤ i → sheet_count = i + Z.of_nat (length worksheets) →
  (extract_loop sheet_count i worksheets records).2
  = rows ← mapM extract worksheets; Ok (records ++ rows).
Proof.
  revert i records. induction worksheets as [|ws rest IH]; intros i records Hi Hn.
  - simpl. by rewrite app_nil_r.
  - cbn [extract_loop mapM]. rewrite script_bind_snd. fold (extract ws).
    cbn [lift snd]. destruct (extract ws) as [row|e]; [|done].
    rewrite script_bind_snd. unfold truediv.
    simpl length in Hn.
    rewrite (proj2 (Z.eqb_neq sheet_count 0)) by lia. cbn [lift snd].
    rewrite script_bind_snd. unfold progress.
    rewrite progress_fraction by lia. cbn [show snd].
    rewrite IH by lia.
    simpl. destruct (mapM extract rest) as [rows|e]; simpl; [|done].
    by rewrite <- app_assoc.
Qed.

(** The loop shows nothing but progress. *)
Lemma extract_loop_shown (worksheets : workbook) (sheet_count i : Z)
    (records : list (dict pyval)) :
  Forall is_progress (extract_loop sheet_count i worksheets records).1.
Proof.
  revert i records. induction worksheets as [|ws rest IH]; intros i records.
  - by constructor.
  - cbn [extract_loop]. rewrite script_bind_fst. cbn [lift fst snd app].
    destruct (fill_row ws cell_map []) as [row|e]; [|by constructor].
    rewrite script_bind_fst.
    destruct (truediv (i + 1) sheet_count) as [q|e]; cbn [lift fst snd app];
      [|by constructor].
    rewrite script_bind_fst. unfold progress.
    destruct (_ && _); cbn [show lift fst snd]; [|by constructor].
    simpl. constructor; [by exists q | apply IH].
Qed.

Lemma extract_loop_agree (wb1 wb2 : workbook) (sheet_count i : Z)
    (records : list (dict pyval)) :
  Forall2 agree wb1 wb2 →
  extract_loop sheet_count i wb1 records = extract_loop sheet_count i wb2 records.
Proof.
  intros Hagree. revert i records.
  induction Hagree as [|ws1 ws2 wb1 wb2 Hws _ IH]; intros i records; [done|].
  cbn [extract_loop]. rewrite (fill_row_agree ws1 ws2) by apply Hws.
  destruct (fill_row ws2 cell_map []) as [row|e]; [|done].
  cbn [lift mbind script_bind].
  destruct (truediv (i + 1) sheet_count) as [q|e]; [|done].
  destruct (progress q) as [shown [[]|e]]; [|done].
  by rewrite IH.
Qed.

(** *** The table *)

Lemma mapM_extract (wb : workbook) :
  mapM extract wb = grid ← mapM fields wb; Ok (zip labels <$> grid).
Proof.
  induction wb as [|ws wb IH]; simpl; [done|].
  rewrite extract_fields, IH.
  destruct (fields ws); simpl; [|done]. by destruct (mapM fields wb).
Qed.

Lemma consolidate_result (wb : workbook) :
  (consolidate wb).2
  = grid ← mapM fields wb; DataFrame_of_dicts (zip labels <$> grid).
Proof.
  unfold consolidate. rewrite script_bind_snd. cbn [show snd].
  rewrite script_bind_snd. change (progress 0).2 with (Ok (A:=unit) tt). cbv iota beta.
  rewrite script_bind_snd, extract_loop_result by lia.
  rewrite mapM_extract.
  destruct (mapM fields wb) as [grid|e]; cbn [mbind result_bind]; [|done].
  rewrite script_bind_snd. cbn [lift snd].
  by destruct (DataFrame_of_dicts _).
Qed.

Lemma consolidate_shown (wb : workbook) : Forall quiet (consolidate wb).1.
Proof.
  unfold consolidate. rewrite script_bind_fst. cbn [show fst snd].
  rewrite script_bind_fst. change (progress 0) with (show (st_progress 0)).
  cbn [show fst snd]. rewrite script_bind_fst.
  repeat (apply Forall_app; split); try (by repeat constructor).
  - eapply Forall_impl; [apply extract_loop_shown|]. by intros e [q ->].
  - destruct (extract_loop _ _ _ _).2 as [records|e]; [|constructor].
    rewrite script_bind_fst. cbn [lift fst snd app].
    destruct (DataFrame_of_dicts records); [|constructor].
    by repeat constructor.
Qed.

Lemma consolidate_raises (wb : workbook) (e : exn) :
  (consolidate wb).2 = Raise e → (∃ why, e = ValueError why) ∨ e = OverflowError.
Proof.
  rewrite consolidate_result.
  destruct (mapM fields wb) as [grid|e'] eqn:Hgrid; simpl.
  - intros ?%DataFrame_of_dicts_raises. by right.
  - intros [= <-]. left. clear -Hgrid.
    induction wb as [|ws wb IH]; simpl in Hgrid; [done|].
    destruct (fields ws) as [vs|e''] eqn:Hvs; simpl in Hgrid.
    + destruct (mapM fields wb); simpl in Hgrid; [done|].
      injection Hgrid as <-. by apply IH.
    + injection Hgrid as <-. by eapply fields_raises.
Qed.

(** *** The output sheet *)

Lemma emit_result (df : DataFrame) :
  (emit df).2
  = ws_out ← write_row (set_title active "Consolidated Data") 1 1
               (VStr <$> columns df);
    write_rows ws_out 2 (itertuples df).
Proof.
  unfold emit. rewrite script_bind_snd. cbn [lift snd].
  destruct (write_row _ _ _ _); simpl; [|done].
  by destruct (write_rows _ _ _).
Qed.

Lemma emit_shown (df : DataFrame) : Forall quiet (emit df).1.
Proof.
  unfold emit. rewrite script_bind_fst. cbn [lift fst snd app].
  destruct (write_row _ _ _ _); [|constructor].
  rewrite script_bind_fst. cbn [show fst snd].
  by repeat constructor.
Qed.

Lemma write_row_raises (values : list pyval) (ws : Worksheet) (r c : Z) (e : exn) :
  1 ≤ r → 1 ≤ c → write_row ws r c values = Raise e →
  ∃ text, e = IllegalCharacterError text.
Proof.
  revert ws c. induction values as [|v values IH]; intros ws c Hr Hc; simpl; [done|].
  destruct (cell ws r c v) as [ws1|e'] eqn:Hcell; simpl.
  - apply IH; lia.
  - intros [= <-]. by apply (cell_raises ws r c v).
Qed.

Lemma write_rows_raises (records : list (list pyval)) (ws : Worksheet) (r : Z)
    (e : exn) :
  1 ≤ r → write_rows ws r records = Raise e → ∃ text, e = IllegalCharacterError text.
Proof.
  revert ws r. induction records as [|record records IH]; intros ws r Hr; simpl; [done|].
  destruct (write_row ws r 1 record) as [ws1|e'] eqn:Hrow; simpl.
  - apply IH; lia.
  - intros [= <-]. apply (write_row_raises record ws r 1); [lia | lia | done].
Qed.

Lemma emit_raises (df : DataFrame) (e : exn) :
  (emit df).2 = Raise e → ∃ text, e = IllegalCharacterError text.
Proof.
  rewrite emit_result.
  destruct (write_row _ _ _ _) as [ws1|e'] eqn:Hrow; simpl.
  - apply write_rows_raises. lia.
  - intros [= <-]. eapply (write_row_raises _ _ 1 1); [lia | lia | done].
Qed.

(** The labels are bound as plain text. *)
Lemma bind_value_labels :
  Forall (λ h, bind_value (VStr h)
               = Ok {| data_type := TYPE_STRING; value := VStr h |}) labels.
Proof. repeat constructor. Qed.

(** *** From the workbook to the output sheet *)

#[local] Opaque labels.

(** A run over at least one worksheet: the frame has the labels as
    columns and one converted column per field; the sheet has the labels in
    row 1, below them what the columns give back, and nothing else. *)
Lemma run_sheet (wb : workbook) (df : DataFrame) (ws_out : Worksheet) :
  wb ≠ [] → (consolidate wb).2 = Ok df → (emit df).2 = Ok ws_out →
  ∃ grid,
    Forall2 (λ ws vs, fields ws = Ok vs) wb grid
    ∧ columns df = labels
    ∧ index df = length wb
    ∧ length (arrays df) = 34%nat
    ∧ (∀ j a, arrays df !! j = Some a → maybe_convert_objects (column grid j) = Ok a)
    ∧ title ws_out = "Consolidated Data"
    ∧ (∀ j h, labels !! j = Some h →
         _cells ws_out !! (1, 1 + Z.of_nat j)
         = Some {| data_type := TYPE_STRING; value := VStr h |})
    ∧ (∀ i j a y, arrays df !! j = Some a → tolist a !! i = Some y →
         ∃ cl, bind_value y = Ok cl
               ∧ _cells ws_out !! (2 + Z.of_nat i, 1 + Z.of_nat j) = Some cl)
    ∧ (∀ r c, is_Some (_cells ws_out !! (r, c))
              ↔ 1 ≤ r ≤ 1 + Z.of_nat (length wb) ∧ 1 ≤ c ≤ 34).
Proof.
  intros Hwb Hdf Hout.
  rewrite consolidate_result in Hdf.
  apply bind_Ok in Hdf as (grid & Hgrid%mapM_Ok & Hdf). exists grid.
  assert (Hwidth : Forall (λ vs, length vs = 34%nat) grid).
  { apply Forall_lookup. intros i vs Hvs.
    destruct (Forall2_lookup_r _ _ _ _ _ Hgrid Hvs) as (ws & _ & Hf).
    by apply fields_length in Hf. }
  assert (Hheight : length grid = length wb) by (symmetry; by eapply Forall2_length).
  apply (DataFrame_of_dicts_uniform labels) in Hdf as (Hcols & Hidx & Harr);
    [|apply NoDup_labels| |].
  2: { destruct grid; [by destruct wb|done]. }
  2: { apply Forall_fmap. eapply Forall_impl; [exact Hwidth|].
       intros vs Hvs. simpl in *. unfold keys. apply fst_zip.
       rewrite length_labels. lia. }
  rewrite length_fmap in Hidx.
  assert (Hcount : length (arrays df) = 34%nat)
    by (by rewrite <- (Forall2_length _ _ _ Harr)).
  assert (Hcolumn : ∀ j a, arrays df !! j = Some a →
            maybe_convert_objects (column grid j) = Ok a).
  { intros j a Ha.
    destruct (Forall2_lookup_r _ _ _ _ _ Harr Ha) as (k & Hk & Hconv).
    rewrite <- Hconv. f_equal. unfold dicts_to_array, column.
    rewrite <- list_fmap_compose. apply Forall_fmap_ext.
    eapply Forall_impl; [exact Hwidth|]. intros vs Hvs. simpl in *.
    destruct (lookup_lt_is_Some_2 vs j) as [v Hv].
    { apply lookup_lt_Some in Hk. rewrite length_labels in Hk. lia. }
    rewrite Hv. simpl. symmetry. by eapply get_zip; [apply NoDup_labels| |]. }
  assert (Htall : ∀ a, a ∈ arrays df → length (tolist a) = length wb).
  { intros a (j & Ha)%list_elem_of_lookup.
    rewrite (maybe_convert_objects_length _ _ (Hcolumn j a Ha)).
    unfold column. by rewrite length_map. }
  assert (Hne : arrays df ≠ []) by (by destruct (arrays df)).
  assert (Hrows : length (itertuples df) = length wb).
  { unfold itertuples. apply length_zip_star; [by destruct (arrays df)|].
    apply Forall_fmap, Forall_forall. intros a Ha. by apply Htall. }
  assert (Hrecord : ∀ i record, itertuples df !! i = Some record →
            length record = 34%nat).
  { intros i record Hrec%itertuples_lookup; [|done].
    by rewrite <- (Forall2_length _ _ _ Hrec). }
  rewrite emit_result in Hout.
  apply bind_Ok in Hout as (ws1 & Hhead & Hdata).
  apply write_row_fresh in Hhead as (Htitle1 & Hcells1 & Hframe1);
    [|intros; apply lookup_empty].
  apply write_rows_fresh in Hdata as (Htitle2 & Hcells2 & Hframe2);
    [|intros r' c' Hr'; rewrite Hframe1 by lia; apply lookup_empty].
  rewrite length_fmap, Hcols, length_labels in Hframe1.
  assert (Hheader : ∀ j h, labels !! j = Some h →
            _cells ws_out !! (1, 1 + Z.of_nat j)
            = Some {| data_type := TYPE_STRING; value := VStr h |}).
  { intros j h Hh.
    destruct (Hcells1 j (VStr h)) as (cl & Hcl & Hlook).
    { by rewrite Hcols, list_lookup_fmap, Hh. }
    rewrite (proj1 (Forall_lookup _ _) bind_value_labels j h Hh) in Hcl.
    injection Hcl as <-. rewrite Hframe2; [done|].
    intros (i & record & _ & ? & _). lia. }
  assert (Hbody : ∀ i j a y, arrays df !! j = Some a → tolist a !! i = Some y →
            ∃ cl, bind_value y = Ok cl
                  ∧ _cells ws_out !! (2 + Z.of_nat i, 1 + Z.of_nat j) = Some cl).
  { intros i j a y Ha Hy.
    destruct (lookup_lt_is_Some_2 (itertuples df) i) as [record Hrec].
    { rewrite Hrows, <- (Htall a) by (by eapply list_elem_of_lookup_2).
      by eapply lookup_lt_Some. }
    pose proof Hrec as Hall%itertuples_lookup; [|done].
    destruct (Forall2_lookup_l _ _ _ _ _ Hall Ha) as (y' & Hy' & Hsame).
    rewrite Hy in Hsame. injection Hsame as <-.
    by apply (Hcells2 i record j y). }
  repeat (split; [done|]). split; [congruence|].
  repeat (split; [done|]). split; [by rewrite Htitle2, Htitle1|].
  repeat (split; [done|]).
  intros r c. split.
  - intros Hsome. destruct (decide (1 ≤ r ≤ 1 + Z.of_nat (length wb) ∧ 1 ≤ c ≤ 34))
      as [|Hout]; [done|]. exfalso.
    rewrite Hframe2, Hframe1 in Hsome.
    + simpl in Hsome. rewrite lookup_empty in Hsome. by destruct Hsome.
    + lia.
    + intros (i & record & Hrec & -> & Hc).
      rewrite (Hrecord i record Hrec) in Hc.
      apply lookup_lt_Some in Hrec. lia.
  - intros [Hr Hc].
    destruct (decide (r = 1)) as [->|Hr1].
    + destruct (lookup_lt_is_Some_2 labels (Z.to_nat (c - 1))) as [h Hh];
        [rewrite length_labels; lia|].
      apply Hheader in Hh. rewrite Z2Nat.id in Hh by lia.
      replace (1 + (c - 1)) with c in Hh by lia. by rewrite Hh.
    + destruct (lookup_lt_is_Some_2 (arrays df) (Z.to_nat (c - 1))) as [a Ha];
        [lia|].
      destruct (lookup_lt_is_Some_2 (tolist a) (Z.to_nat (r - 2))) as [y Hy].
      { rewrite Htall by (by eapply list_elem_of_lookup_2). lia. }
      destruct (Hbody _ _ _ _ Ha Hy) as (cl & _ & Hlook).
      rewrite !Z2Nat.id in Hlook by lia.
      replace (2 + (r - 2)) with r in Hlook by lia.
      replace (1 + (c - 1)) with c in Hlook by lia. by rewrite Hlook.
Qed.

(** One cell of the output sheet, traced back to the worksheet it comes
    from: the mapped cell is extracted, goes through the column of its field
    and is bound. *)
Lemma run_cell (wb : workbook) (df : DataFrame) (ws_out : Worksheet)
    (i : nat) (ws : worksheet) (j : nat) (header : string) (r c : Z) :
  (consolidate wb).2 = Ok df → (emit df).2 = Ok ws_out →
  wb !! i = Some ws → cell_map !! j = Some (header, (r, c)) →
  ∃ grid x a y cl,
    Forall2 (λ ws vs, fields ws = Ok vs) wb grid
    ∧ field_value ws header r c = Ok x
    ∧ column grid j !! i = Some x
    ∧ arrays df !! j = Some a
    ∧ maybe_convert_objects (column grid j) = Ok a
    ∧ tolist a !! i = Some y
    ∧ pandas_image x y
    ∧ bind_value y = Ok cl
    ∧ _cells ws_out !! (2 + Z.of_nat i, 1 + Z.of_nat j) = Some cl.
Proof.
  intros Hdf Hout Hws Hentry.
  destruct (run_sheet wb df ws_out) as
    (grid & Hgrid & _ & _ & Hcount & Hcolumn & _ & _ & Hbody & _);
    [by destruct wb | done | done |].
  destruct (Forall2_lookup_l _ _ _ _ _ Hgrid Hws) as (vs & Hvs & Hfields).
  apply mapM_Ok in Hfields.
  destruct (Forall2_lookup_l _ _ _ _ _ Hfields Hentry) as (x & Hx & Hfield).
  destruct (lookup_lt_is_Some_2 (arrays df) j) as [a Ha].
  { rewrite Hcount. apply lookup_lt_Some in Hentry. simpl in Hentry. done. }
  pose proof (Hcolumn j a Ha) as Hconv.
  assert (Hcol : column grid j !! i = Some x).
  { unfold column. by rewrite list_lookup_fmap, Hvs; simpl; rewrite Hx. }
  pose proof (maybe_convert_objects_image _ _ Hconv) as Himage.
  destruct (Forall2_lookup_l _ _ _ _ _ Himage Hcol) as (y & Hy & Hxy).
  destruct (Hbody i j a y Ha Hy) as (cl & Hcl & Hlook).
  exists grid, x, a, y, cl. done.
Qed.

Lemma emitted_of_image (x y : pyval) (cl : Cell) :
  pandas_image x y → bind_value y = Ok cl → emitted_as x (value cl).
Proof.
  intros Hxy Hcl%bind_value_emitted.
  destruct Hxy as [v| |n f Hf]; [|rewrite Hcl; constructor..]; [|done].
  destruct v; rewrite Hcl; constructor.
Qed.

(** *** Worksheets as sets of cells *)

Lemma sheet_of_list_to_map (assignments : list ((Z * Z) * pyval)) :
  sheet_of assignments = list_to_map (reverse assignments).
Proof.
  unfold sheet_of. rewrite <- (reverse_involutive assignments) at 1.
  generalize (reverse assignments) as l. intros l.
  induction l as [|[k v] l IH]; [done|].
  rewrite reverse_cons, foldl_app. simpl. by rewrite IH.
Qed.

(** The order in which distinct cells are filled does not show. *)
Lemma sheet_of_perm (l l' : list ((Z * Z) * pyval)) :
  NoDup l.*1 → l ≡ₚ l' → sheet_of l = sheet_of l'.
Proof.
  intros Hnd Hperm. rewrite !sheet_of_list_to_map.
  apply list_to_map_proper.
  - by rewrite fmap_reverse, reverse_Permutation.
  - by rewrite !reverse_Permutation.
Qed.

Lemma unmapped (r c : Z) :
  bool_decide ((r, c) ∈ cell_map.*2) = false → ∀ header, (header, (r, c)) ∉ cell_map.
Proof.
  intros Hfree%bool_decide_eq_false header Hin. apply Hfree.
  apply list_elem_of_fmap. by exists (header, (r, c)).
Qed.

(** A coordinate no field is mapped to. *)
Lemma agree_insert (ws : worksheet) (r c : Z) (v : pyval) :
  (∀ header, (header, (r, c)) ∉ cell_map) → agree ws (<[(r, c) := v]> ws).
Proof.
  intros Hfree header r' c' Hin. rewrite lookup_insert_ne; [done|].
  intros [= <- <-]. by apply (Hfree header).
Qed.

Lemma agree_delete (ws : worksheet) (r c : Z) :
  (∀ header, (header, (r, c)) ∉ cell_map) → agree ws (delete (r, c) ws).
Proof.
  intros Hfree header r' c' Hin. rewrite lookup_delete_ne; [done|].
  intros [= <- <-]. by apply (Hfree header).
Qed.

(** *** The whole run *)

Section RunFacts.
Context `{Codec}.

Lemma try_body_unfold (f : bytes) :
  try_body f
  = match load_workbook f with
    | Raise e => ([], Raise e)
    | Ok wb =>
        let opening := [st_status; st_write Reading] in
        match consolidate wb with
        | (shown1, Raise e) => (opening ++ shown1, Raise e)
        | (shown1, Ok df) =>
            match emit df with
            | (shown2, Raise e) => (opening ++ shown1 ++ shown2, Raise e)
            | (shown2, Ok ws_out) =>
                match save ws_out with
                | Raise e => (opening ++ shown1 ++ shown2, Raise e)
                | Ok output =>
                    (opening ++ shown1 ++ shown2
                     ++ [status_update; st_subheader; st_dataframe (head df);
                         st_download_button output], Ok tt)
                end
            end
        end
    end.
Proof.
  unfold try_body. generalize consolidate emit. intros table sheet.
  destruct (load_workbook f) as [wb|e]; [|done]. simpl.
  destruct (table wb) as [shown1 [df|e]]; [|done]. simpl.
  destruct (sheet df) as [shown2 [ws_out|e]]; [|done]. simpl.
  destruct (save ws_out) as [output|e]; simpl; by rewrite ?app_nil_r.
Qed.

(** The failure of any stage is the failure of the run. *)
Lemma try_body_result (f : bytes) :
  (try_body f).2
  = wb ← load_workbook f; df ← (consolidate wb).2; ws_out ← (emit df).2;
    _ ← save ws_out; Ok tt.
Proof.
  rewrite try_body_unfold. generalize consolidate emit. intros table sheet.
  destruct (load_workbook f) as [wb|e]; [|done]. simpl.
  destruct (table wb) as [shown1 [df|e]]; [|done]. simpl.
  destruct (sheet df) as [shown2 [ws_out|e]]; [|done]. simpl.
  by destruct (save ws_out).
Qed.

End RunFacts.

End AppFacts.

(** * The specification, statement by statement *)

Import Py Openpyxl Pandas App Spec.
Import PyFacts PandasFacts OpenpyxlFacts AppFacts.

(** The quantity branch, for whatever the cell at (16, 2) holds. *)
Lemma field_value_quantity (ws : worksheet) (v : pyval) :
  field_value (<[(16, 2) := v]> ws) quantity 16 2
  = match v with
    | VStr s => n ← int (removesuffix s "GM"); Ok (VInt n)
    | _ => Ok v
    end.
Proof.
  unfold field_value, cell_value. simpl. by rewrite lookup_insert_eq.
Qed.




(** The quantity texts of the specification, within the digit limit, are
    read. *)
Lemma spec_quantity_text_int (s : string) :
  spec_quantity_text s = true →
  (String.length s ≤ int_max_str_digits)%nat →
  ∃ n, int (removesuffix s "GM") = Ok n.
Proof.
  unfold spec_quantity_text.
  intros [Hplain|[Hend Hplain]%andb_true_iff]%orb_true_iff Hlen.
  - rewrite removesuffix_other by (by apply plain_integer_endswith).
    eexists. by apply int_plain_integer.
  - eexists. apply int_plain_integer; [done|].
    pose proof (length_removesuffix s "GM"). lia.
Qed.

(** C9.  The quantity field reads more text than [<integer>] and
    [<integer>GM]: every such text (up to the interpreter's limit of 4300
    digits) gives an integer, and so do " 1200GM", "+1200" and "1_200GM",
    which are not of that form; each gives 1200. *)
Theorem quantity_accepts_more (ws : worksheet) :
  let qty s := field_value (<[(16, 2) := VStr s]> ws) quantity 16 2 in
  (∀ s, spec_quantity_text s = true → (String.length s ≤ 4300)%nat →
     ∃ n, qty s = Ok (VInt n))
  ∧ (spec_quantity_text " 1200GM" = false ∧ qty " 1200GM" = Ok (VInt 1200))
  ∧ (spec_quantity_text "+1200" = false ∧ qty "+1200" = Ok (VInt 1200))
  ∧ (spec_quantity_text "1_200GM" = false ∧ qty "1_200GM" = Ok (VInt 1200))
  ∧ (spec_quantity_text "1200 " = false ∧ qty "1200 " = Ok (VInt 1200)).
Proof.
  intros qty. subst qty. cbv beta. split.
  - intros s Hs Hlen. rewrite field_value_quantity.
    destruct (spec_quantity_text_int s Hs Hlen) as [n ->]. by exists n.
  - repeat split; by rewrite ?field_value_quantity.
Qed.

Lemma quantity_accepts_more_witness :
  spec_quantity_text "-35GM" = true
  ∧ (String.length "-35GM" ≤ 4300)%nat
  ∧ ∃ n, field_value (<[(16, 2) := VStr "-35GM"]> ∅) quantity 16 2 = Ok (VInt n).
Proof.
  split; [reflexivity|]. split; [simpl; lia|].
  apply (proj1 (quantity_accepts_more ∅) "-35GM"); [reflexivity|].
  simpl; lia.
Defined.

(** C10.  The progress fraction [(i + 1) / sheet_count] is computed only
    inside the loop body, where [sheet_count] is at least [i + 1]: for an
    empty workbook the loop returns at once without dividing, and for every
    workbook the loop ends exactly as the extractions alone do, so neither
    the division nor the progress bar ever fails; no [ZeroDivisionError]
    comes out of the table or of the output sheet. *)
Theorem progress_division_safe (wb : workbook) :
  extract_loop 0 0 [] [] = ([], Ok [])
  ∧ (∀ i, 0 ≤ i < Z.of_nat (length wb) →
       ∃ q, truediv (i + 1) (Z.of_nat (length wb)) = Ok q
            ∧ progress q = show (st_progress q))
  ∧ (extract_loop (Z.of_nat (length wb)) 0 wb []).2 = mapM extract wb
  ∧ (consolidate wb).2 ≠ Raise ZeroDivisionError
  ∧ (consolidate wb).2 ≠ Raise StreamlitAPIException
  ∧ (∀ df, (emit df).2 ≠ Raise ZeroDivisionError).
Proof.
  split; [done|]. split; [|split; [|split; [|split]]].
  - intros i Hi. unfold truediv.
    rewrite (proj2 (Z.eqb_neq _ 0)) by lia. eexists. split; [done|].
    unfold progress. by rewrite progress_fraction by lia.
  - rewrite extract_loop_result by lia. by destruct (mapM extract wb).
  - intros [(why & [=])|[=]]%consolidate_raises.
  - intros [(why & [=])|[=]]%consolidate_raises.
  - intros df (text & [=])%emit_raises.
Qed.

Lemma progress_division_safe_witness :
  0 ≤ 1 < Z.of_nat (length two_sheets)
  ∧ ∃ q, truediv (1 + 1) (Z.of_nat (length two_sheets)) = Ok q
         ∧ progress q = show (st_progress q).
Proof.
  split; [simpl; lia|].
  apply (proj1 (proj2 (progress_division_safe two_sheets)) 1). simpl; lia.
Defined.

Section WithCodec.
Context `{Codec}.

(** C7.  The failure of any stage - loading, extraction and table,
    output sheet, serialisation - is the failure of the run; a failed run
    shows, after events that neither deliver a result nor report an error,
    one error message and the remediation hint, and nothing else; only a
    run without failure shows the preview and the download, as its last two
    events. *)
Theorem errors_caught_once (f : bytes) :
  (try_body f).2
  = (wb ← load_workbook f; df ← (consolidate wb).2; ws_out ← (emit df).2;
     _ ← save ws_out; Ok tt)
  ∧ match (try_body f).2 with
    | Raise e =>
        ∃ shown, app (Some f) = shown ++ [st_error e; st_info EnsureFormat]
                 ∧ Forall quiet shown
    | Ok _ =>
        ∃ shown df output,
          app (Some f)
          = shown ++ [status_update; st_subheader; st_dataframe df;
                      st_download_button output]
          ∧ Forall quiet shown
    end.
Proof.
  split; [apply try_body_result|].
  unfold app. rewrite try_body_unfold.
  pose proof consolidate_shown as Htable. pose proof emit_shown as Hsheet.
  revert Htable Hsheet. generalize consolidate emit. intros table sheet Htable Hsheet.
  destruct (load_workbook f) as [wb|e]; simpl.
  - specialize (Htable wb).
    destruct (table wb) as [shown1 [df|e]]; simpl in *.
    + specialize (Hsheet df).
      destruct (sheet df) as [shown2 [ws_out|e]]; simpl in *.
      * destruct (save ws_out) as [output|e]; simpl.
        -- exists (st_status :: st_write Reading :: shown1 ++ shown2), (head df), output.
           split; [simpl; by rewrite <- ?app_assoc|].
           repeat constructor. by apply Forall_app.
        -- exists (st_status :: st_write Reading :: shown1 ++ shown2).
           split; [simpl; by rewrite <- ?app_assoc|].
           repeat constructor. by apply Forall_app.
      * exists (st_status :: st_write Reading :: shown1 ++ shown2).
        split; [simpl; by rewrite <- ?app_assoc|].
        repeat constructor. by apply Forall_app.
    + exists (st_status :: st_write Reading :: shown1).
      split; [done|]. by repeat constructor.
  - exists []. split; [done | constructor].
Qed.

(** C8.  Worksheets that agree on every mapped coordinate give the same
    records, the same table with the same events and, once loaded, the same
    page: the same preview and the same download.  Writing to a coordinate
    that no field is mapped to, or clearing it, gives such a worksheet. *)
Theorem unmapped_cells_ignored (wb1 wb2 : workbook) (f1 f2 : bytes) :
  Forall2 agree wb1 wb2 →
  load_workbook f1 = Ok wb1 → load_workbook f2 = Ok wb2 →
  mapM extract wb1 = mapM extract wb2
  ∧ consolidate wb1 = consolidate wb2
  ∧ app (Some f1) = app (Some f2)
  ∧ (∀ ws r c v, ws ∈ wb1 → (∀ header, (header, (r, c)) ∉ cell_map) →
       agree ws (<[(r, c) := v]> ws) ∧ agree ws (delete (r, c) ws)).
Proof.
  intros Hagree Hf1 Hf2.
  assert (Htable : consolidate wb1 = consolidate wb2).
  { unfold consolidate. rewrite (Forall2_length _ _ _ Hagree).
    by rewrite (extract_loop_agree wb1 wb2). }
  split; [|split; [done|split]].
  - apply mapM_ext_Forall2. eapply Forall2_impl; [exact Hagree|].
    intros ws1 ws2 Hws. by apply fill_row_agree.
  - unfold app. by rewrite !try_body_unfold, Hf1, Hf2, Htable.
  - intros ws r c v _ Hfree. split; [by apply agree_insert | by apply agree_delete].
Qed.

End WithCodec.

Lemma unmapped_cells_ignored_witness :
  let wb1 := [sheet_of [((7, 2), VInt 250)]] in
  let wb2 := [sheet_of [((7, 2), VInt 250); ((1, 1), VStr "MCHX run 7")]] in
  let codec := two_file_codec wb1 wb2 in
  Forall2 agree wb1 wb2
  ∧ @load_workbook codec [] = Ok wb1
  ∧ @load_workbook codec [Byte.x00] = Ok wb2
  ∧ @app codec (Some []) = @app codec (Some [Byte.x00]).
Proof.
  intros wb1 wb2 codec.
  assert (Hagree : Forall2 agree wb1 wb2).
  { repeat constructor.
    apply (agree_insert (sheet_of [((7, 2), VInt 250)]) 1 1 (VStr "MCHX run 7")).
    apply unmapped. reflexivity. }
  split; [exact Hagree|]. split; [reflexivity|]. split; [reflexivity|].
  apply (@unmapped_cells_ignored codec wb1 wb2 [] [Byte.x00] Hagree eq_refl eq_refl).
Defined.

Lemma out_value_cell (ws_out : Worksheet) (r c : Z) (cl : Cell) :
  _cells ws_out !! (r, c) = Some cl → out_value ws_out r c = Some (value cl).
Proof. intros Hcl. unfold out_value. by rewrite Hcl. Qed.

Lemma labels_lookup (j : nat) (header : string) (r c : Z) :
  cell_map !! j = Some (header, (r, c)) → labels !! j = Some header.
Proof. intros Hj. unfold labels. by rewrite list_lookup_fmap, Hj. Qed.

(** C5.  Row 1 of the output sheet holds the label of field number [j] in
    column [j + 1], and the row of worksheet number [i] holds in that column
    what was extracted from the cell that field is mapped to, as emitted;
    the worksheet is the same whatever the order in which its cells were
    filled. *)
Theorem field_map_order (wb : workbook) (df : DataFrame) (ws_out : Worksheet)
    (i : nat) (ws : worksheet) (j : nat) (header : string) (r c : Z) :
  run wb df ws_out → wb !! i = Some ws → cell_map !! j = Some (header, (r, c)) →
  columns df = labels
  ∧ out_value ws_out 1 (1 + Z.of_nat j) = Some (VStr header)
  ∧ (∃ x y, field_value ws header r c = Ok x
            ∧ out_value ws_out (2 + Z.of_nat i) (1 + Z.of_nat j) = Some y
            ∧ emitted_as x y)
  ∧ (∀ cells cells', ws = sheet_of cells → NoDup cells.*1 → cells ≡ₚ cells' →
       ws = sheet_of cells').
Proof.
  intros [Hdf Hout] Hws Hentry.
  destruct (run_sheet wb df ws_out) as (_ & _ & Hcols & _ & _ & _ & _ & Hheader & _);
    [by destruct wb | done | done |].
  destruct (run_cell wb df ws_out i ws j header r c Hdf Hout Hws Hentry)
    as (grid & x & a & y & cl & _ & Hx & _ & _ & _ & _ & Hxy & Hcl & Hlook).
  split; [done|]. split; [|split].
  - by rewrite (out_value_cell _ _ _ _ (Hheader j header (labels_lookup _ _ _ _ Hentry))).
  - exists x, (value cl). split; [done|]. split; [by apply out_value_cell|].
    by eapply emitted_of_image.
  - intros cells cells' -> Hnd Hperm. by apply sheet_of_perm.
Qed.

Lemma field_map_order_witness :
  run two_sheets two_sheets_df two_sheets_out
  ∧ two_sheets !! 0%nat = Some (sheet_of [((7, 2), VInt 250)])
  ∧ cell_map !! 1%nat = Some ("EEV", (7, 2))
  ∧ out_value two_sheets_out 1 (1 + Z.of_nat 1) = Some (VStr "EEV").
Proof.
  assert (Hrun : run two_sheets two_sheets_df two_sheets_out)
    by (split; vm_compute; reflexivity).
  assert (Hws : two_sheets !! 0%nat = Some (sheet_of [((7, 2), VInt 250)]))
    by (vm_compute; reflexivity).
  assert (Hentry : cell_map !! 1%nat = Some ("EEV", (7, 2))) by reflexivity.
  split; [exact Hrun|]. split; [exact Hws|]. split; [exact Hentry|].
  exact (proj1 (proj2 (field_map_order two_sheets two_sheets_df two_sheets_out 0
                         (sheet_of [((7, 2), VInt 250)]) 1 "EEV" 7 2
                         Hrun Hws Hentry))).
Defined.

(** The run over [two_sheets], and two of its cells. *)
Lemma two_sheets_run : run two_sheets two_sheets_df two_sheets_out.
Proof. split; vm_compute; reflexivity. Qed.

Lemma two_sheets_cells :
  two_sheets !! 0%nat = Some (sheet_of [((7, 2), VInt 250)])
  ∧ two_sheets !! 1%nat = Some (sheet_of [])
  ∧ field_value (sheet_of [((7, 2), VInt 250)]) "EEV" 7 2 = Ok (VInt 250)
  ∧ field_value (sheet_of []) "EEV" 7 2 = Ok VNone
  ∧ out_value two_sheets_out 2 2
    = Some (VFloat (S754_finite false 8796093022208000 (-45)))
  ∧ out_value two_sheets_out 3 2 = Some (VFloat nan).
Proof. repeat split; vm_compute; reflexivity. Qed.

(** C2, as the specification states it, fails on [two_sheets]: the
    second worksheet has no valve opening, and the output sheet holds the
    number NaN for it. *)
Lemma kinds_preserved_counterexample : ¬ kinds_preserved two_sheets.
Proof.
  intros Hkinds.
  destruct two_sheets_cells as (_ & Hws & _ & Hx & _ & Hnan).
  destruct (Hkinds two_sheets_df two_sheets_out 1%nat (sheet_of []) 1%nat "EEV" 7 2
              VNone two_sheets_run Hws eq_refl Hx) as (y & Hy & Hkind).
  change (out_value two_sheets_out (2 + Z.of_nat 1) (1 + Z.of_nat 1))
    with (out_value two_sheets_out 3 2) in Hy.
  rewrite Hnan in Hy. injection Hy as <-. discriminate Hkind.
Qed.

(** C2, amended.  Every emitted value is the extracted one, except that
    in a column pandas infers as float64 an integer comes out as the float
    nearest to it and an empty value as NaN, and that text is cut at 32767
    characters: numbers stay numbers, text stays text, booleans stay
    booleans; an empty value stays empty or becomes the number NaN.  The
    cell is typed by the emitted value, so text that begins with "=" is
    written as a formula. *)
Theorem values_emitted (wb : workbook) (df : DataFrame) (ws_out : Worksheet)
    (i : nat) (ws : worksheet) (j : nat) (header : string) (r c : Z) (x : pyval) :
  run wb df ws_out → wb !! i = Some ws →
  cell_map !! j = Some (header, (r, c)) → field_value ws header r c = Ok x →
  ∃ cl a,
    _cells ws_out !! (2 + Z.of_nat i, 1 + Z.of_nat j) = Some cl
    ∧ arrays df !! j = Some a
    ∧ emitted_as x (value cl)
    ∧ ((∀ xs, a ≠ float64_array xs) →
         value cl = match x with
                    | VStr s => VStr (substring 0 (Z.to_nat 32767) s)
                    | _ => x
                    end)
    ∧ data_type cl = written_type (value cl)
    ∧ (kind_of x ≠ Empty → kind_of (value cl) = kind_of x)
    ∧ (kind_of x = Empty → value cl = VNone ∨ value cl = VFloat nan).
Proof.
  intros [Hdf Hout] Hws Hentry Hx.
  destruct (run_cell wb df ws_out i ws j header r c Hdf Hout Hws Hentry)
    as (grid & x' & a & y & cl & _ & Hx' & Hcol & Ha & Hconv & Hy & Hxy & Hcl & Hlook).
  rewrite Hx in Hx'. injection Hx' as <-.
  exists cl, a. split; [done|]. split; [done|].
  pose proof (emitted_of_image _ _ _ Hxy Hcl) as Hemitted.
  split; [done|]. split.
  { intros Hother.
    destruct (maybe_convert_objects_tolist _ _ Hconv) as [[xs ->]|Hsame];
      [by destruct (Hother xs)|].
    rewrite Hsame, Hcol in Hy. injection Hy as <-.
    apply bind_value_emitted in Hcl. by destruct x. }
  split; [by eapply bind_value_type|].
  destruct Hemitted; simpl; split; auto; done.
Qed.

Lemma values_emitted_witness :
  run two_sheets two_sheets_df two_sheets_out
  ∧ two_sheets !! 0%nat = Some (sheet_of [((7, 2), VInt 250)])
  ∧ cell_map !! 1%nat = Some ("EEV", (7, 2))
  ∧ field_value (sheet_of [((7, 2), VInt 250)]) "EEV" 7 2 = Ok (VInt 250)
  ∧ ∃ cl, _cells two_sheets_out !! (2 + Z.of_nat 0, 1 + Z.of_nat 1) = Some cl
          ∧ emitted_as (VInt 250) (value cl).
Proof.
  assert (Hrun : run two_sheets two_sheets_df two_sheets_out)
    by (split; vm_compute; reflexivity).
  assert (Hws : two_sheets !! 0%nat = Some (sheet_of [((7, 2), VInt 250)]))
    by (vm_compute; reflexivity).
  assert (Hentry : cell_map !! 1%nat = Some ("EEV", (7, 2))) by reflexivity.
  assert (Hx : field_value (sheet_of [((7, 2), VInt 250)]) "EEV" 7 2 = Ok (VInt 250))
    by (vm_compute; reflexivity).
  split; [exact Hrun|]. split; [exact Hws|]. split; [exact Hentry|].
  split; [exact Hx|].
  destruct (values_emitted two_sheets two_sheets_df two_sheets_out 0
              (sheet_of [((7, 2), VInt 250)]) 1 "EEV" 7 2 (VInt 250)
              Hrun Hws Hentry Hx) as (cl & a & Hcl & _ & Hemitted & _).
  exists cl. split; [exact Hcl | exact Hemitted].
Defined.

(** A blank mapped cell is extracted as [None]. *)
Lemma field_value_blank (ws : worksheet) (header : string) (r c : Z) :
  (header, (r, c)) ∈ cell_map → blank ws r c → field_value ws header r c = Ok VNone.
Proof.
  intros [Hr Hc]%cell_map_coordinates Hblank. unfold field_value, cell_value.
  rewrite (proj2 (Z.ltb_ge r 1)), (proj2 (Z.ltb_ge c 1)) by done. simpl.
  destruct Hblank as [-> | ->]; simpl; by destruct (String.eqb _ _).
Qed.

(** C3, as the specification states it, fails on [two_sheets]: the blank
    valve opening of the second worksheet is emitted as NaN. *)
Lemma blank_stays_empty_counterexample : ¬ blank_stays_empty two_sheets.
Proof.
  intros Hblank.
  destruct two_sheets_cells as (_ & Hws & _ & _ & _ & Hnan).
  assert (Hcell : blank (sheet_of []) 7 2) by (left; vm_compute; reflexivity).
  pose proof (Hblank two_sheets_df two_sheets_out 1%nat (sheet_of []) 1%nat "EEV" 7 2
                two_sheets_run Hws eq_refl Hcell) as Hy.
  change (out_value two_sheets_out (2 + Z.of_nat 1) (1 + Z.of_nat 1))
    with (out_value two_sheets_out 3 2) in Hy.
  rewrite Hnan in Hy. discriminate Hy.
Qed.

(** C3, amended.  A mapped cell that is missing or blank is extracted as
    [None] without an error, and its cell of the output sheet is a numeric
    cell that is empty or holds NaN, never zero: NaN exactly when pandas
    infers the column of that field as float64, which it does not when the
    field is blank in every worksheet. *)
Theorem blank_cell_emitted (wb : workbook) (df : DataFrame) (ws_out : Worksheet)
    (i : nat) (ws : worksheet) (j : nat) (header : string) (r c : Z) :
  run wb df ws_out → wb !! i = Some ws →
  cell_map !! j = Some (header, (r, c)) → blank ws r c →
  field_value ws header r c = Ok VNone
  ∧ ∃ cl a,
      _cells ws_out !! (2 + Z.of_nat i, 1 + Z.of_nat j) = Some cl
      ∧ arrays df !! j = Some a
      ∧ data_type cl = TYPE_NUMERIC
      ∧ (value cl = VNone ∨ value cl = VFloat nan)
      ∧ value cl ≠ VInt 0
      ∧ (∀ sign, value cl ≠ VFloat (S754_zero sign))
      ∧ (value cl = VFloat nan ↔ ∃ xs, a = float64_array xs)
      ∧ ((∀ ws', ws' ∈ wb → blank ws' r c) → value cl = VNone).
Proof.
  intros [Hdf Hout] Hws Hentry Hblank.
  pose proof (field_value_blank ws header r c
                (list_elem_of_lookup_2 _ _ _ Hentry) Hblank) as Hnone.
  split; [done|].
  destruct (run_cell wb df ws_out i ws j header r c Hdf Hout Hws Hentry)
    as (grid & x & a & y & cl & Hgrid & Hx & Hcol & Ha & Hconv & Hy & Hxy & Hcl & Hlook).
  rewrite Hnone in Hx. injection Hx as <-.
  exists cl, a. split; [done|]. split; [done|].
  assert (Hvalue : (y = VNone ∨ y = VFloat nan)) by (inversion Hxy; auto).
  assert (Hcell : cl = {| data_type := TYPE_NUMERIC; value := y |})
    by (destruct Hvalue as [-> | ->]; simpl in Hcl; by injection Hcl as <-).
  subst cl. simpl. split; [done|]. split; [done|].
  split; [by destruct Hvalue as [-> | ->]|].
  split; [intros sign; by destruct Hvalue as [-> | ->]|].
  split.
  { split.
    - intros ->.
      destruct (maybe_convert_objects_tolist _ _ Hconv) as [|Hsame]; [done|].
      rewrite Hsame, Hcol in Hy. done.
    - intros [xs ->]. simpl in Hy. apply list_lookup_fmap_Some in Hy as (z & -> & _).
      by destruct Hvalue. }
  intros Hall.
  rewrite maybe_convert_objects_blank in Hconv.
  - injection Hconv as <-. simpl in Hy. rewrite Hcol in Hy. by injection Hy as <-.
  - apply Forall_lookup. intros i' x' Hi'.
    assert (is_Some (wb !! i')) as [ws' Hws'].
    { apply lookup_lt_is_Some. rewrite (Forall2_length _ _ _ Hgrid).
      apply lookup_lt_Some in Hi'. unfold column in Hi'.
      by rewrite length_map in Hi'. }
    destruct (Forall2_lookup_l _ _ _ _ _ Hgrid Hws') as (vs & Hvs & Hfields).
    apply mapM_Ok in Hfields.
    destruct (Forall2_lookup_l _ _ _ _ _ Hfields Hentry) as (x'' & Hx'' & Hfield).
    assert (Hcol' : column grid j !! i' = Some x'')
      by (unfold column; by rewrite list_lookup_fmap, Hvs; simpl; rewrite Hx'').
    rewrite Hi' in Hcol'. injection Hcol' as <-.
    rewrite (field_value_blank ws' header r c) in Hfield.
    + by injection Hfield as <-.
    + by eapply list_elem_of_lookup_2.
    + apply Hall. by eapply list_elem_of_lookup_2.
Qed.

Lemma blank_cell_emitted_witness :
  run two_sheets two_sheets_df two_sheets_out
  ∧ two_sheets !! 1%nat = Some (sheet_of [])
  ∧ cell_map !! 1%nat = Some ("EEV", (7, 2))
  ∧ blank (sheet_of []) 7 2
  ∧ field_value (sheet_of []) "EEV" 7 2 = Ok VNone.
Proof.
  assert (Hrun : run two_sheets two_sheets_df two_sheets_out)
    by (split; vm_compute; reflexivity).
  assert (Hws : two_sheets !! 1%nat = Some (sheet_of []))
    by (vm_compute; reflexivity).
  assert (Hentry : cell_map !! 1%nat = Some ("EEV", (7, 2))) by reflexivity.
  assert (Hcell : blank (sheet_of []) 7 2) by (left; vm_compute; reflexivity).
  split; [exact Hrun|]. split; [exact Hws|]. split; [exact Hentry|].
  split; [exact Hcell|].
  exact (proj1 (blank_cell_emitted two_sheets two_sheets_df two_sheets_out 1
                  (sheet_of []) 1 "EEV" 7 2 Hrun Hws Hentry Hcell)).
Defined.

(** The run over a workbook without worksheets: a frame without columns
    and a sheet without cells. *)
Lemma empty_run (df : DataFrame) (ws_out : Worksheet) :
  run [] df ws_out ↔
  df = {| columns := []; arrays := []; index := 0 |}
  ∧ ws_out = {| title := "Consolidated Data"; _cells := ∅ |}.
Proof.
  unfold run. split.
  - intros [Hdf Hout]. vm_compute in Hdf. injection Hdf as <-.
    vm_compute in Hout. injection Hout as <-. done.
  - intros [-> ->]. split; vm_compute; reflexivity.
Qed.

(** C4, as the specification states it, fails on the workbook without
    worksheets: the table has no column, and the sheet no row. *)
Lemma table_shape_counterexample :
  ∃ df ws_out, run [] df ws_out ∧ ¬ table_shape [] df ws_out.
Proof.
  eexists _, _. split; [by apply empty_run|].
  intros (_ & Hcolumns & _). discriminate Hcolumns.
Qed.

(** C4, amended.  For a workbook with at least one worksheet, the table
    has one row per worksheet and one column per Field Map entry, and the
    cells of the output sheet are exactly those of rows 1 to N + 1 and
    columns 1 to 34. *)
Theorem table_shape_nonempty (wb : workbook) (df : DataFrame) (ws_out : Worksheet) :
  wb ≠ [] → run wb df ws_out →
  table_shape wb df ws_out
  ∧ length (arrays df) = length cell_map
  ∧ length (itertuples df) = length wb
  ∧ (∀ r c, is_Some (_cells ws_out !! (r, c))
            ↔ 1 ≤ r ≤ Z.of_nat (length wb) + 1 ∧ 1 ≤ c ≤ Z.of_nat (length cell_map)).
Proof.
  intros Hwb [Hdf Hout].
  destruct (run_sheet wb df ws_out Hwb Hdf Hout)
    as (grid & Hgrid & Hcols & Hidx & Hcount & Hcolumn & _ & _ & _ & Hcells).
  assert (Hrows : length (itertuples df) = length wb).
  { unfold itertuples. apply length_zip_star; [by destruct (arrays df)|].
    apply Forall_fmap, Forall_lookup. intros j a Ha. simpl.
    rewrite (maybe_convert_objects_length _ _ (Hcolumn j a Ha)).
    unfold column. rewrite length_map. symmetry. by eapply Forall2_length. }
  split; [|split; [done|split; [done|]]].
  - split; [done|]. split; [by rewrite Hcols|].
    intros r. split.
    + intros [c Hc%Hcells]. lia.
    + intros Hr. exists 1. apply Hcells. lia.
  - intros r c. rewrite Hcells. simpl. lia.
Qed.

Lemma table_shape_nonempty_witness :
  two_sheets ≠ []
  ∧ run two_sheets two_sheets_df two_sheets_out
  ∧ table_shape two_sheets two_sheets_df two_sheets_out.
Proof.
  assert (Hwb : two_sheets ≠ []) by discriminate.
  assert (Hrun : run two_sheets two_sheets_df two_sheets_out)
    by (split; vm_compute; reflexivity).
  split; [exact Hwb|]. split; [exact Hrun|].
  exact (proj1 (table_shape_nonempty two_sheets two_sheets_df two_sheets_out Hwb Hrun)).
Defined.

(** C6, as the specification states it, fails: the table of the workbook
    without worksheets has no schema, and row 1 of the sheet no label. *)
Lemma header_only_counterexample :
  ∃ df ws_out, run [] df ws_out ∧ ¬ header_only df ws_out.
Proof.
  eexists _, _. split; [by apply empty_run|].
  intros (Hcolumns & _). discriminate Hcolumns.
Qed.

Section EmptyWorkbook.
Context `{Codec}.

(** C6, amended.  A workbook without worksheets gives a table without
    rows and without columns and an output sheet, titled "Consolidated
    Data", without any cell: no header row and no data row.  The run does
    not fail: the empty sheet is serialised and, with the empty preview,
    delivered. *)
Theorem empty_workbook (f : bytes) :
  load_workbook f = Ok [] →
  let df := {| columns := []; arrays := []; index := 0 |} in
  let ws_out := {| title := "Consolidated Data"; _cells := ∅ |} in
  run [] df ws_out
  ∧ (∀ df' ws_out', run [] df' ws_out' → df' = df ∧ ws_out' = ws_out)
  ∧ itertuples df = []
  ∧ (∀ r c, out_value ws_out r c = None)
  ∧ app (Some f)
    = [st_status; st_write Reading; st_write (Found 0); st_progress 0;
       st_write (Extracted 0 0); st_write Creating]
      ++ match save ws_out with
         | Ok output =>
             [status_update; st_subheader; st_dataframe df;
              st_download_button output]
         | Raise e => [st_error e; st_info EnsureFormat]
         end.
Proof.
  intros Hload df ws_out.
  split; [by apply empty_run|]. split; [intros df' ws_out'; by apply empty_run|].
  split; [done|]. split; [done|].
  unfold app. rewrite try_body_unfold, Hload.
  change (consolidate [])
    with ([st_write (Found 0); st_progress 0; st_write (Extracted 0 0)], Ok df).
  cbv iota beta zeta.
  change (emit df) with ([st_write Creating], Ok ws_out).
  cbv iota beta. by destruct (save ws_out).
Qed.

End EmptyWorkbook.

Lemma empty_workbook_witness :
  @load_workbook (fixed_codec []) [] = Ok []
  ∧ @app (fixed_codec []) (Some [])
    = [st_status; st_write Reading; st_write (Found 0); st_progress 0;
       st_write (Extracted 0 0); st_write Creating; status_update; st_subheader;
       st_dataframe {| columns := []; arrays := []; index := 0 |};
       st_download_button []].
Proof.
  split; [reflexivity|].
  exact (proj2 (proj2 (proj2 (proj2 (@empty_workbook (fixed_codec []) [] eq_refl))))).
Defined.

(** * Further properties of the script *)

(** ** One worksheet *)

Lemma tail_entries :
  Forall (λ '(header, (r, c)), String.eqb header quantity = false ∧ 1 ≤ r ∧ 1 ≤ c)
    (tail cell_map).
Proof. repeat constructor; lia. Qed.

(** No field after the quantity can fail, and none is touched. *)
Lemma fields_unfold (ws : worksheet) :
  fields ws = q ← field_value ws quantity 16 2; Ok (q :: raw_values ws).
Proof.
  unfold fields, raw_values.
  change cell_map with ((quantity, (16, 2)) :: tail cell_map) at 1.
  cbn [mapM]. destruct (field_value ws quantity 16 2) as [q|e]; [|done].
  cbn [mbind result_bind].
  replace (mapM (λ '(header, (r, c)), field_value ws header r c) (tail cell_map))
    with (Ok (map (λ '(_, (r, c)), default VNone (ws !! (r, c))) (tail cell_map)));
    [done|].
  symmetry. apply mapM_Ok.
  pose proof tail_entries as Hall. revert Hall.
  generalize (tail cell_map) as entries. intros entries Hall.
  induction Hall as [|[header [r c]] entries (Hh & Hr & Hc) _ IH]; simpl;
    constructor; [|done].
  unfold field_value, cell_value. fold quantity.
  rewrite (proj2 (Z.ltb_ge r 1)), (proj2 (Z.ltb_ge c 1)), Hh by done. done.
Qed.

Lemma int_raises (text : string) (e : exn) : int text = Raise e → from_int e.
Proof.
  unfold int, from_int. destruct (take_sign _) as [negative l].
  repeat (match goal with
          | |- context [match ?x with _ => _ end] => destruct x
          end; simpl; try done; try (intros [= <-]; eauto)).
Qed.

Lemma field_value_quantity_cases (ws : worksheet) :
  field_value ws quantity 16 2
  = match ws !! (16, 2) with
    | Some (VStr s) => n ← int (removesuffix s "GM"); Ok (VInt n)
    | Some v => Ok v
    | None => Ok VNone
    end.
Proof.
  unfold field_value, cell_value. simpl.
  destruct (ws !! (16, 2)) as [[| | | |s]|]; done.
Qed.

(** X1.  Reading a worksheet fails in one way only: its quantity cell holds
    text that, one trailing "GM" removed, [int] does not read; the
    exception is that of [int], an invalid literal or the digit limit.  No
    other cell, whatever it holds, makes the extraction fail. *)
Theorem extract_raises_iff (ws : worksheet) (e : exn) :
  (extract ws = Raise e
   ↔ ∃ s, ws !! (16, 2) = Some (VStr s) ∧ int (removesuffix s "GM") = Raise e)
  ∧ (extract ws = Raise e → from_int e).
Proof.
  assert (Hiff : extract ws = Raise e
            ↔ ∃ s, ws !! (16, 2) = Some (VStr s) ∧ int (removesuffix s "GM") = Raise e).
  { rewrite extract_fields, fields_unfold, field_value_quantity_cases.
    destruct (ws !! (16, 2)) as [[| | | |s]|]; simpl;
      try (split; [done | by intros (s' & [=] & _)]).
    destruct (int (removesuffix s "GM")) as [n|e'] eqn:Hint; simpl.
    - split; [done|]. intros (s' & [= <-] & Hs'). rewrite Hint in Hs'. done.
    - split.
      + intros [= <-]. eauto.
      + intros (s' & [= <-] & Hs'). rewrite Hint in Hs'. by injection Hs' as ->. }
  split; [done|].
  intros (s & _ & Hint)%Hiff. by eapply int_raises.
Qed.

Lemma extract_raises_iff_witness :
  extract (sheet_of [((16, 2), VStr "1200KG")])
  = Raise (ValueError (InvalidLiteral "1200KG"))
  ∧ from_int (ValueError (InvalidLiteral "1200KG")).
Proof.
  assert (Hraise : extract (sheet_of [((16, 2), VStr "1200KG")])
                   = Raise (ValueError (InvalidLiteral "1200KG"))).
  { apply (proj1 (extract_raises_iff _ _)). exists "1200KG".
    split; vm_compute; reflexivity. }
  split; [exact Hraise|].
  exact (proj2 (extract_raises_iff _ _) Hraise).
Defined.

(** X2.  The record of a worksheet has the 34 labels as its keys, in
    Field Map order; under the quantity label it never holds text, and
    under every other label it holds the mapped cell as it is - text
    included, so "1200GM" in any other field stays text - or [None] where
    the worksheet has no such cell. *)
Theorem record_of_worksheet (ws : worksheet) (row : dict pyval) :
  extract ws = Ok row →
  keys row = labels
  ∧ (∃ q, field_value ws quantity 16 2 = Ok q ∧ isinstance_str q = false
          ∧ row = zip labels (q :: raw_values ws))
  ∧ (∀ j header r c, (0 < j)%nat → cell_map !! j = Some (header, (r, c)) →
       row !! j = Some (header, default VNone (ws !! (r, c)))).
Proof.
  rewrite extract_fields, fields_unfold.
  intros (vs & (q & Hq & Hvs)%bind_Ok & Hrow)%bind_Ok.
  assert (vs = q :: raw_values ws) as -> by congruence.
  assert (row = zip labels (q :: raw_values ws)) as -> by congruence.
  clear Hvs Hrow.
  split; [|split].
  - unfold keys. apply fst_zip. unfold raw_values.
    cbn [length]. rewrite length_map. done.
  - exists q. split; [done|]. split; [|done].
    rewrite field_value_quantity_cases in Hq.
    destruct (ws !! (16, 2)) as [[| | | |s]|]; try (by injection Hq as <-).
    apply bind_Ok in Hq as (n & _ & [= <-]). done.
  - intros [|j] header r c Hj Hentry; [lia|].
    unfold dict. rewrite lookup_zip_with, (labels_lookup _ _ _ _ Hentry). simpl.
    unfold raw_values. rewrite list_lookup_fmap, lookup_tail, Hentry. done.
Qed.

Lemma record_of_worksheet_witness :
  ∃ row,
    extract (sheet_of [((16, 2), VStr "1200GM"); ((7, 2), VStr "1200GM")]) = Ok row
    ∧ row !! 0%nat = Some (quantity, VInt 1200)
    ∧ row !! 1%nat = Some ("EEV", VStr "1200GM")
    ∧ row !! 2%nat = Some ("Test Condition", VNone).
Proof.
  eexists. split; [vm_compute; reflexivity|].
  split; [reflexivity|].
  assert (Hrow : extract (sheet_of [((16, 2), VStr "1200GM"); ((7, 2), VStr "1200GM")])
                 = Ok (zip labels (VInt 1200 :: raw_values
                         (sheet_of [((16, 2), VStr "1200GM"); ((7, 2), VStr "1200GM")]))))
    by (vm_compute; reflexivity).
  split.
  - exact (proj2 (proj2 (record_of_worksheet _ _ Hrow)) 1%nat "EEV" 7 2
             (Nat.lt_0_succ 0) eq_refl).
  - exact (proj2 (proj2 (record_of_worksheet _ _ Hrow)) 2%nat "Test Condition" 2 2
             (Nat.lt_0_succ 1) eq_refl).
Defined.

(** ** The loop over the worksheets *)

Lemma progress_steps_cons (sheet_count i : Z) (n : nat) :
  progress_steps sheet_count i (S n)
  = st_progress (Qdiv (inject_Z (i + 1)) (inject_Z sheet_count))
    :: progress_steps sheet_count (i + 1) n.
Proof.
  unfold progress_steps. rewrite <- cons_seq, <- fmap_S_seq. simpl.
  rewrite Z.add_0_r. f_equal.
  rewrite <- list_fmap_compose. apply list_fmap_ext. intros _ k _. simpl.
  do 3 f_equal. lia.
Qed.

Lemma length_progress_steps (sheet_count i : Z) (n : nat) :
  length (progress_steps sheet_count i n) = n.
Proof. unfold progress_steps. by rewrite length_map, length_seq. Qed.

(** One turn of the loop, for a worksheet that is read. *)
Lemma extract_loop_step (sheet_count i : Z) (ws : worksheet) (rest : workbook)
    (records : list (dict pyval)) (row : dict pyval) :
  0 ≤ i < sheet_count → extract ws = Ok row →
  extract_loop sheet_count i (ws :: rest) records
  = let '(shown, r) := extract_loop sheet_count (i + 1) rest (records ++ [row]) in
    (st_progress (Qdiv (inject_Z (i + 1)) (inject_Z sheet_count)) :: shown, r).
Proof.
  intros Hi Hrow. cbn [extract_loop]. unfold extract in Hrow. rewrite Hrow.
  unfold truediv. rewrite (proj2 (Z.eqb_neq sheet_count 0)) by lia.
  cbn [lift mbind script_bind]. unfold progress.
  rewrite progress_fraction by lia. cbn [show].
  by destruct (extract_loop _ _ _ _).
Qed.

(** A loop that reads every worksheet. *)
Lemma extract_loop_trace (worksheets : workbook) (sheet_count i : Z)
    (records rows : list (dict pyval)) :
  0 ≤ i → sheet_count = i + Z.of_nat (length worksheets) →
  mapM extract worksheets = Ok rows →
  extract_loop sheet_count i worksheets records
  = (progress_steps sheet_count i (length worksheets), Ok (records ++ rows)).
Proof.
  revert i records rows.
  induction worksheets as [|ws rest IH]; intros i records rows Hi Hn.
  - intros [= <-]. simpl. by rewrite app_nil_r.
  - intros (row & Hrow & (rows' & Hrows & [= <-])%bind_Ok)%bind_Ok.
    simpl length in *.
    rewrite (extract_loop_step _ _ _ _ _ row) by (done || lia).
    rewrite (IH (i + 1) (records ++ [row]) rows') by (done || lia).
    by rewrite progress_steps_cons, <- app_assoc.
Qed.

(** A loop that meets a worksheet it cannot read. *)
Lemma extract_loop_abort (good : workbook) (bad : worksheet) (rest : workbook)
    (sheet_count i : Z) (records rows : list (dict pyval)) (e : exn) :
  0 ≤ i → sheet_count = i + Z.of_nat (length (good ++ bad :: rest)) →
  mapM extract good = Ok rows → extract bad = Raise e →
  extract_loop sheet_count i (good ++ bad :: rest) records
  = (progress_steps sheet_count i (length good), Raise e).
Proof.
  revert i records rows.
  induction good as [|ws good IH]; intros i records rows Hi Hn.
  - intros _ Hbad. rewrite app_nil_l. cbn [extract_loop].
    unfold extract in Hbad. by rewrite Hbad.
  - intros (row & Hrow & (rows' & Hrows & [= <-])%bind_Ok)%bind_Ok Hbad.
    rewrite length_app in Hn. simpl length in *.
    change ((ws :: good) ++ bad :: rest) with (ws :: (good ++ bad :: rest)).
    rewrite (extract_loop_step _ _ _ _ _ row) by (done || lia).
    rewrite (IH (i + 1) (records ++ [row]) rows') by (done || rewrite ?length_app; simpl; lia).
    by rewrite progress_steps_cons.
Qed.

Lemma consolidate_records (wb : workbook) (df : DataFrame) :
  (consolidate wb).2 = Ok df →
  ∃ rows, mapM extract wb = Ok rows ∧ DataFrame_of_dicts rows = Ok df
          ∧ length rows = length wb.
Proof.
  rewrite consolidate_result. intros (grid & Hgrid & Hdf)%bind_Ok.
  exists (zip labels <$> grid). rewrite mapM_extract, Hgrid. split; [done|].
  split; [done|]. rewrite length_fmap. symmetry.
  apply mapM_Ok in Hgrid. by eapply Forall2_length.
Qed.

Lemma consolidate_unfold (wb : workbook) (rows : list (dict pyval)) (df : DataFrame) :
  mapM extract wb = Ok rows → DataFrame_of_dicts rows = Ok df →
  consolidate wb
  = ([st_write (Found (Z.of_nat (length wb))); st_progress 0]
     ++ progress_steps (Z.of_nat (length wb)) 0 (length wb)
     ++ [st_write (Extracted (len df) (Z.of_nat (length wb)))], Ok df).
Proof.
  intros Hrows Hdf. unfold consolidate.
  rewrite (extract_loop_trace wb _ 0 [] rows) by (done || lia).
  change (progress 0) with (show (st_progress 0)).
  cbn [show lift mbind script_bind mret script_ret]. rewrite app_nil_l, Hdf.
  cbn [app]. by rewrite !app_nil_r.
Qed.

(** X3.  A table that is built shows, after "Found N worksheets" and the
    empty bar, one progress value per worksheet - [k / N] after the k-th, so
    1 after the last - and then "Extracted N records from N sheets": the
    two numbers of that message are always the same. *)
Theorem consolidate_trace (wb : workbook) (df : DataFrame) :
  (consolidate wb).2 = Ok df →
  let N := Z.of_nat (length wb) in
  (consolidate wb).1
  = [st_write (Found N); st_progress 0] ++ progress_steps N 0 (length wb)
    ++ [st_write (Extracted N N)]
  ∧ len df = N
  ∧ (∀ k, (k < length wb)%nat →
       progress_steps N 0 (length wb) !! k
       = Some (st_progress (Qdiv (inject_Z (0 + Z.of_nat k + 1)) (inject_Z N))))
  ∧ (wb ≠ [] → Qeq (Qdiv (inject_Z (0 + Z.of_nat (length wb - 1) + 1)) (inject_Z N)) 1).
Proof.
  intros (rows & Hrows & Hdf & Hlen)%consolidate_records N.
  assert (Hcount : len df = N).
  { unfold DataFrame_of_dicts in Hdf.
    apply bind_Ok in Hdf as (arrays & _ & [= <-]). unfold len. simpl.
    subst N. by rewrite Hlen. }
  rewrite (consolidate_unfold wb rows df Hrows Hdf). fold N. rewrite Hcount.
  split; [done|]. split; [done|]. split.
  - intros k Hk. unfold progress_steps.
    by rewrite list_lookup_fmap, lookup_seq_lt.
  - intros Hwb. subst N. destruct wb as [|ws wb]; [done|]. simpl length.
    replace (0 + Z.of_nat (S (length wb) - 1) + 1) with (Z.of_nat (S (length wb)))
      by lia.
    apply Qmult_inv_r. unfold Qeq. simpl. lia.
Qed.

Lemma consolidate_trace_witness :
  (consolidate two_sheets).2 = Ok two_sheets_df
  ∧ (consolidate two_sheets).1
    = [st_write (Found 2); st_progress 0; st_progress (1 # 2); st_progress (2 # 2);
       st_write (Extracted 2 2)].
Proof.
  assert (Hdf : (consolidate two_sheets).2 = Ok two_sheets_df)
    by (vm_compute; reflexivity).
  split; [exact Hdf|].
  exact (proj1 (consolidate_trace two_sheets two_sheets_df Hdf)).
Defined.

Section Pages.
Context `{Codec}.

(** X4.  The first worksheet that cannot be read ends the run: the page
    shows progress for the worksheets before it and then its error and the
    hint; the worksheets after it are not read and change nothing but the
    count. *)
Theorem first_failure_page (f : bytes) (good : workbook) (bad : worksheet)
    (rest : workbook) (rows : list (dict pyval)) (e : exn) :
  load_workbook f = Ok (good ++ bad :: rest) →
  mapM extract good = Ok rows → extract bad = Raise e →
  let N := Z.of_nat (length (good ++ bad :: rest)) in
  (consolidate (good ++ bad :: rest)).2 = Raise e
  ∧ app (Some f)
    = [st_status; st_write Reading; st_write (Found N); st_progress 0]
      ++ progress_steps N 0 (length good)
      ++ [st_error e; st_info EnsureFormat].
Proof.
  intros Hload Hgood Hbad N.
  assert (Htable : consolidate (good ++ bad :: rest)
                   = ([st_write (Found N); st_progress 0]
                      ++ progress_steps N 0 (length good), Raise e)).
  { unfold consolidate. fold N.
    rewrite (extract_loop_abort good bad rest N 0 [] rows e) by (done || lia).
    change (progress 0) with (show (st_progress 0)).
    cbn [show lift mbind script_bind]. done. }
  split; [by rewrite Htable|].
  unfold app. rewrite try_body_unfold, Hload, Htable.
  cbv zeta iota beta. by simpl.
Qed.

End Pages.

Lemma first_failure_page_witness :
  @app (fixed_codec three_sheets) (Some [])
  = [st_status; st_write Reading; st_write (Found 3); st_progress 0;
     st_progress (1 # 3);
     st_error (ValueError (InvalidLiteral "1200KG")); st_info EnsureFormat].
Proof.
  assert (Hload : @load_workbook (fixed_codec three_sheets) []
                  = Ok ([sheet_of [((16, 2), VStr "1200GM")]]
                        ++ sheet_of [((16, 2), VStr "1200KG")]
                        :: [sheet_of [((16, 2), VStr "900GM")]]))
    by reflexivity.
  assert (Hgood : mapM extract [sheet_of [((16, 2), VStr "1200GM")]]
                  = Ok [zip labels (VInt 1200
                          :: raw_values (sheet_of [((16, 2), VStr "1200GM")]))])
    by (vm_compute; reflexivity).
  assert (Hbad : extract (sheet_of [((16, 2), VStr "1200KG")])
                 = Raise (ValueError (InvalidLiteral "1200KG")))
    by (vm_compute; reflexivity).
  exact (proj2 (@first_failure_page (fixed_codec three_sheets) [] _ _ _ _ _
                  Hload Hgood Hbad)).
Defined.

(** ** The page of a run that succeeds *)

Lemma emit_unfold (df : DataFrame) (ws_out : Worksheet) :
  (emit df).2 = Ok ws_out → emit df = ([st_write Creating], Ok ws_out).
Proof.
  unfold emit. cbn [lift show mbind script_bind].
  destruct (write_row _ 1 1 _) as [ws1|e]; [|done]. cbn [app].
  destruct (write_rows ws1 2 _) as [ws2|e]; [|done].
  cbn [app snd]. by intros [= ->].
Qed.

Lemma tolist_head_array (n : nat) (a : ndarray) :
  tolist (head_array n a) = take n (tolist a).
Proof. destruct a; simpl; by rewrite ?firstn_map. Qed.

Lemma zip_star_take {A} (n : nat) (arrays : list (list A)) :
  zip_star (map (take n) arrays) = take n (zip_star arrays).
Proof.
  induction arrays as [|a arrays IH]; [by destruct n|].
  destruct arrays as [|b arrays].
  - simpl. by rewrite firstn_map.
  - change (zip_star (map (take n) (a :: b :: arrays)))
      with (zip_with cons (take n a) (zip_star (map (take n) (b :: arrays)))).
    rewrite IH.
    change (zip_star (a :: b :: arrays))
      with (zip_with cons a (zip_star (b :: arrays))).
    by rewrite zip_with_take.
Qed.

Lemma itertuples_head (df : DataFrame) :
  itertuples (head df) = take 5 (itertuples df).
Proof.
  unfold itertuples, head. cbn [arrays].
  rewrite <- zip_star_take, !map_map. f_equal.
  apply map_ext. intros a. apply tolist_head_array.
Qed.

Lemma run_length (wb : workbook) (df : DataFrame) (ws_out : Worksheet) :
  run wb df ws_out → length (itertuples df) = length wb.
Proof.
  destruct wb as [|ws wb].
  - intros [-> _]%empty_run. done.
  - intros [Hdf Hout].
    destruct (run_sheet (ws :: wb) df ws_out) as
      (grid & Hgrid & _ & _ & Hwidth & Harrays & _); [done..|].
    unfold itertuples. apply length_zip_star.
    + destruct (arrays df); done.
    + apply Forall_fmap, Forall_lookup. intros j a Ha. simpl.
      rewrite (maybe_convert_objects_length (column grid j)) by auto.
      unfold column. rewrite length_map. symmetry.
      apply (Forall2_length _ _ _ Hgrid).
Qed.

Section Success.
Context `{Codec}.

(** X5.  A run that succeeds shows the status, the messages of the table,
    "Creating cleaned workbook", the completed status, the preview and the
    download button, in this order and nothing else; the preview has the
    columns of the table and its first five rows - all of them when the
    workbook has at most five worksheets. *)
Theorem success_page (f : bytes) (wb : workbook) (df : DataFrame)
    (ws_out : Worksheet) (output : bytes) :
  load_workbook f = Ok wb → run wb df ws_out → save ws_out = Ok output →
  app (Some f)
  = [st_status; st_write Reading] ++ (consolidate wb).1
    ++ [st_write Creating; status_update; st_subheader; st_dataframe (head df);
        st_download_button output]
  ∧ columns (head df) = columns df
  ∧ itertuples (head df) = take 5 (itertuples df)
  ∧ length (itertuples (head df)) = Nat.min 5 (length wb).
Proof.
  intros Hload Hrun Hsave. pose proof Hrun as [Hdf Hout].
  split; [|split; [done|split; [apply itertuples_head|]]].
  - unfold app. rewrite try_body_unfold, Hload.
    destruct (consolidate wb) as [shown1 table]. simpl in Hdf. subst table.
    cbv iota beta zeta. rewrite (emit_unfold df ws_out Hout), Hsave.
    done.
  - by rewrite itertuples_head, length_take, (run_length wb df ws_out).
Qed.

End Success.

Lemma success_page_witness :
  @app (fixed_codec two_sheets) (Some [])
  = [st_status; st_write Reading] ++ (consolidate two_sheets).1
    ++ [st_write Creating; status_update; st_subheader;
        st_dataframe (head two_sheets_df); st_download_button []]
  ∧ length (itertuples (head two_sheets_df)) = 2%nat.
Proof.
  assert (Hrun : run two_sheets two_sheets_df two_sheets_out)
    by (split; vm_compute; reflexivity).
  assert (Hload : @load_workbook (fixed_codec two_sheets) [] = Ok two_sheets)
    by reflexivity.
  assert (Hsave : @save (fixed_codec two_sheets) two_sheets_out = Ok [])
    by reflexivity.
  destruct (@success_page (fixed_codec two_sheets) [] _ _ _ _ Hload Hrun Hsave)
    as (Hpage & _ & _ & Hrows).
  split; [exact Hpage | exact Hrows].
Defined.

(** ** What a run can fail with *)

Lemma fields_raises_int (ws : worksheet) (e : exn) :
  fields ws = Raise e → from_int e.
Proof.
  rewrite fields_unfold, field_value_quantity_cases.
  destruct (ws !! (16, 2)) as [[| | | |s]|]; try done.
  destruct (int (removesuffix s "GM")) as [n|e'] eqn:Hint; [done|].
  simpl. intros [= <-]. by eapply int_raises.
Qed.

Lemma consolidate_raises_int (wb : workbook) (e : exn) :
  (consolidate wb).2 = Raise e → from_int e ∨ e = OverflowError.
Proof.
  rewrite consolidate_result.
  destruct (mapM fields wb) as [grid|e'] eqn:Hgrid; simpl.
  - intros ?%DataFrame_of_dicts_raises. by right.
  - intros [= <-]. left. clear -Hgrid.
    induction wb as [|ws wb IH]; simpl in Hgrid; [done|].
    destruct (fields ws) as [vs|e''] eqn:Hvs; simpl in Hgrid.
    + destruct (mapM fields wb); simpl in Hgrid; [done|].
      injection Hgrid as <-. by apply IH.
    + injection Hgrid as <-. by eapply fields_raises_int.
Qed.

Section Failures.
Context `{Codec}.

(** X6.  A run fails in one of four places, and each has its own
    exceptions: the workbook cannot be loaded; a quantity text is refused by
    [int], or a column holds an integer too large for a float; a text to
    write carries a control character; or the output cannot be saved.
    When loading and saving are not to blame, the exception is one of the
    middle two kinds. *)
Theorem failure_stages (f : bytes) (e : exn) :
  (try_body f).2 = Raise e →
  (load_workbook f = Raise e
   ∨ (∃ wb, load_workbook f = Ok wb ∧ (consolidate wb).2 = Raise e
            ∧ (from_int e ∨ e = OverflowError))
   ∨ (∃ wb df, load_workbook f = Ok wb ∧ (consolidate wb).2 = Ok df
               ∧ (emit df).2 = Raise e ∧ ∃ text, e = IllegalCharacterError text)
   ∨ (∃ wb df ws_out, load_workbook f = Ok wb ∧ run wb df ws_out
                      ∧ save ws_out = Raise e))
  ∧ (load_workbook f ≠ Raise e → (∀ ws_out, save ws_out ≠ Raise e) →
     from_stages e).
Proof.
  rewrite try_body_result. intros Hrun.
  assert (Hcases :
    load_workbook f = Raise e
    ∨ (∃ wb, load_workbook f = Ok wb ∧ (consolidate wb).2 = Raise e
             ∧ (from_int e ∨ e = OverflowError))
    ∨ (∃ wb df, load_workbook f = Ok wb ∧ (consolidate wb).2 = Ok df
                ∧ (emit df).2 = Raise e ∧ ∃ text, e = IllegalCharacterError text)
    ∨ (∃ wb df ws_out, load_workbook f = Ok wb ∧ run wb df ws_out
                       ∧ save ws_out = Raise e)).
  { destruct (load_workbook f) as [wb|e1]; simpl in Hrun;
      [|injection Hrun as ->; by left].
    right.
    destruct (consolidate wb).2 as [df|e2] eqn:Hdf; simpl in Hrun.
    - right.
      destruct (emit df).2 as [ws_out|e3] eqn:Hout; simpl in Hrun.
      + right. exists wb, df, ws_out. split; [done|]. split; [done|].
        destruct (save ws_out); simpl in Hrun; [done|]. by injection Hrun as ->.
      + left. exists wb, df. injection Hrun as <-.
        repeat split; try done. by eapply emit_raises.
    - left. exists wb. injection Hrun as <-.
      repeat split; try done. by eapply consolidate_raises_int. }
  split; [exact Hcases|]. intros Hload Hsave. unfold from_stages.
  destruct Hcases as [?|[(wb & _ & _ & [?|?])|[(wb & df & _ & _ & _ & ?)|
    (wb & df & ws_out & _ & _ & ?)]]]; auto.
  - done.
  - by destruct (Hsave ws_out).
Qed.

End Failures.

Lemma failure_stages_witness :
  @try_body (fixed_codec [sheet_of [((16, 2), VStr "1200KG")]]) []
  = ([st_status; st_write Reading; st_write (Found 1); st_progress 0],
     Raise (ValueError (InvalidLiteral "1200KG")))
  ∧ from_stages (ValueError (InvalidLiteral "1200KG")).
Proof.
  assert (Hrun : @try_body (fixed_codec [sheet_of [((16, 2), VStr "1200KG")]]) []
                 = ([st_status; st_write Reading; st_write (Found 1); st_progress 0],
                    Raise (ValueError (InvalidLiteral "1200KG"))))
    by (vm_compute; reflexivity).
  split; [exact Hrun|].
  apply (proj2 (@failure_stages (fixed_codec [sheet_of [((16, 2), VStr "1200KG")]])
                  [] _ (f_equal snd Hrun))).
  - discriminate.
  - discriminate.
Defined.

(** ** Writing the output sheet *)

Lemma bind_value_clean (v : pyval) : is_ok (bind_value v) = clean v.
Proof.
  destruct v as [| | | |s]; try done. simpl. unfold check_string.
  destruct (existsb _ _); [done|]. simpl.
  repeat (match goal with
          | |- context [if ?b then _ else _] => destruct b
          end); done.
Qed.

Lemma cell_clean (ws : Worksheet) (r c : Z) (v : pyval) :
  1 ≤ r → 1 ≤ c → is_ok (cell ws r c v) = clean v.
Proof.
  intros Hr Hc. unfold cell.
  rewrite (proj2 (Z.ltb_ge r 1)), (proj2 (Z.ltb_ge c 1)) by done. simpl.
  destruct v as [| | | |s]; try done.
  rewrite <- bind_value_clean. by destruct (bind_value (VStr s)).
Qed.

Lemma write_row_clean (values : list pyval) (ws : Worksheet) (r c : Z) :
  1 ≤ r → 1 ≤ c → is_ok (write_row ws r c values) = forallb clean values.
Proof.
  revert ws c. induction values as [|v values IH]; intros ws c Hr Hc; [done|].
  cbn [write_row forallb]. rewrite <- (cell_clean ws r c v) by done.
  destruct (cell ws r c v) as [ws1|e]; [|done].
  cbn [mbind result_bind is_ok andb]. apply IH; lia.
Qed.

Lemma write_rows_clean (rows : list (list pyval)) (ws : Worksheet) (r : Z) :
  1 ≤ r → is_ok (write_rows ws r rows) = forallb (forallb clean) rows.
Proof.
  revert ws r. induction rows as [|row rows IH]; intros ws r Hr; [done|].
  cbn [write_rows forallb]. rewrite <- (write_row_clean row ws r 1) by lia.
  destruct (write_row ws r 1 row) as [ws1|e]; [|done].
  cbn [mbind result_bind is_ok andb]. apply IH; lia.
Qed.

(** X7.  Whether the output sheet can be written depends on the text of the
    table alone: it is written exactly when no column name and no text
    value has, within its first 32767 characters, a control character that
    openpyxl refuses; numbers, booleans and empty values never stop it. *)
Theorem emit_ok_iff_clean (df : DataFrame) :
  is_ok (emit df).2
  = forallb clean (VStr <$> columns df) && forallb (forallb clean) (itertuples df).
Proof.
  rewrite emit_result.
  rewrite <- (write_row_clean (VStr <$> columns df)
                (set_title active "Consolidated Data") 1 1) by lia.
  destruct (write_row _ 1 1 _) as [ws1|e]; [|done].
  cbn [mbind result_bind is_ok andb]. apply write_rows_clean. lia.
Qed.

(** X8.  A control character in the text of any mapped cell - other than
    the quantity cell, whose text is parsed - makes the whole run fail with
    [IllegalCharacterError] once the table is built: one such cell in one
    worksheet is enough. *)
Theorem control_character_aborts (wb : workbook) (df : DataFrame) (i : nat)
    (ws : worksheet) (j : nat) (header : string) (r c : Z) (s : string) :
  (consolidate wb).2 = Ok df → wb !! i = Some ws →
  cell_map !! j = Some (header, (r, c)) →
  field_value ws header r c = Ok (VStr s) → clean (VStr s) = false →
  ∃ text, (emit df).2 = Raise (IllegalCharacterError text).
Proof.
  intros Hdf Hws Hj Hx Hdirty.
  destruct (emit df).2 as [ws_out|e] eqn:Hout.
  - destruct (run_cell wb df ws_out i ws j header r c Hdf Hout Hws Hj)
      as (grid & x & a & y & cl & _ & Hx' & _ & _ & _ & _ & Himage & Hcl & _).
    assert (x = VStr s) as -> by congruence.
    inversion Himage; subst.
    pose proof (bind_value_clean (VStr s)) as Hclean.
    rewrite Hcl, Hdirty in Hclean. done.
  - destruct (emit_raises df e Hout) as [text ->]. eauto.
Qed.

Lemma control_character_aborts_witness :
  ∃ text, (emit bell_df).2 = Raise (IllegalCharacterError text).
Proof.
  apply (control_character_aborts bell_sheets bell_df 0
           (sheet_of [((2, 2), VStr (String "007"%char "T1"))])
           2 "Test Condition" 2 2 (String "007"%char "T1")).
  - vm_compute; reflexivity.
  - reflexivity.
  - reflexivity.
  - vm_compute; reflexivity.
  - vm_compute; reflexivity.
Defined.

(** X9.  The quantity column of the output sheet never holds text: the row
    of every worksheet has in column 1 a numeric or boolean cell, whatever
    the quantity cell of the worksheet held. *)
Theorem quantity_never_text (wb : workbook) (df : DataFrame) (ws_out : Worksheet)
    (i : nat) (ws : worksheet) :
  run wb df ws_out → wb !! i = Some ws →
  ∃ cl, _cells ws_out !! (2 + Z.of_nat i, 1) = Some cl
        ∧ kind_of (value cl) ≠ Text
        ∧ (data_type cl = TYPE_NUMERIC ∨ data_type cl = TYPE_BOOL).
Proof.
  intros [Hdf Hout] Hws.
  assert (Hj : cell_map !! 0%nat = Some (quantity, (16, 2))) by reflexivity.
  destruct (run_cell wb df ws_out i ws 0 quantity 16 2 Hdf Hout Hws Hj)
    as (grid & x & a & y & cl & _ & Hx & _ & _ & _ & _ & Himage & Hcl & Hcell).
  exists cl. split; [exact Hcell|].
  assert (Hnot : isinstance_str x = false).
  { rewrite field_value_quantity_cases in Hx.
    destruct (ws !! (16, 2)) as [[| | | |s]|]; try (by injection Hx as <-).
    apply bind_Ok in Hx as (n & _ & Hn). by injection Hn as <-. }
  destruct Himage as [v| |n f Hf]; [destruct v; try done| |];
    injection Hcl as <-; simpl; split; auto; discriminate.
Qed.

Lemma quantity_never_text_witness :
  ∃ cl, _cells two_sheets_out !! (2 + Z.of_nat 0, 1) = Some cl
        ∧ kind_of (value cl) ≠ Text
        ∧ (data_type cl = TYPE_NUMERIC ∨ data_type cl = TYPE_BOOL).
Proof.
  assert (Hrun : run two_sheets two_sheets_df two_sheets_out)
    by (split; vm_compute; reflexivity).
  assert (Hws : two_sheets !! 0%nat = Some (sheet_of [((7, 2), VInt 250)]))
    by reflexivity.
  exact (quantity_never_text two_sheets two_sheets_df two_sheets_out 0 _ Hrun Hws).
Defined.

(** ** One column at a time *)

Lemma column_fields (wb : workbook) (grid : list (list pyval)) (j : nat)
    (header : string) (r c : Z) :
  Forall2 (λ ws vs, fields ws = Ok vs) wb grid →
  cell_map !! j = Some (header, (r, c)) →
  Forall2 (λ ws x, field_value ws header r c = Ok x) wb (column grid j).
Proof.
  intros Hgrid Hj. induction Hgrid as [|ws vs wb grid Hvs _ IH]; [constructor|].
  cbn [column map]. constructor; [|exact IH].
  apply mapM_Ok in Hvs.
  destruct (Forall2_lookup_l _ _ _ _ _ Hvs Hj) as (x & -> & Hx). done.
Qed.

Lemma column_agree (wb1 wb2 : workbook) (col1 col2 : list pyval)
    (header : string) (r c : Z) :
  Forall2 (λ ws1 ws2, field_value ws1 header r c = field_value ws2 header r c)
    wb1 wb2 →
  Forall2 (λ ws x, field_value ws header r c = Ok x) wb1 col1 →
  Forall2 (λ ws x, field_value ws header r c = Ok x) wb2 col2 →
  col1 = col2.
Proof.
  intros Hsame. revert col1 col2.
  induction Hsame as [|ws1 ws2 wb1 wb2 Hws _ IH]; intros col1 col2 H1 H2.
  - inversion H1. by inversion H2.
  - inversion H1 as [|? x1 ? rest1 Hx1 Hrest1]; subst.
    inversion H2 as [|? x2 ? rest2 Hx2 Hrest2]; subst.
    f_equal; [congruence | by apply IH].
Qed.

(** X10.  Each column of the output sheet is made from its own field
    alone: two workbooks whose worksheets give, one by one, the same values
    for a field have, when both runs succeed, the same cells all the way
    down the column of that field - whatever their other fields hold. *)
Theorem column_independent (wb1 wb2 : workbook) (df1 df2 : DataFrame)
    (out1 out2 : Worksheet) (j : nat) (header : string) (r c : Z) :
  run wb1 df1 out1 → run wb2 df2 out2 →
  cell_map !! j = Some (header, (r, c)) →
  Forall2 (λ ws1 ws2, field_value ws1 header r c = field_value ws2 header r c)
    wb1 wb2 →
  ∀ row, _cells out1 !! (row, 1 + Z.of_nat j) = _cells out2 !! (row, 1 + Z.of_nat j).
Proof.
  intros Hrun1 Hrun2 Hj Hsame row.
  destruct wb1 as [|ws1 wb1].
  { apply Forall2_nil_inv_l in Hsame as ->.
    apply empty_run in Hrun1 as [_ ->]. by apply empty_run in Hrun2 as [_ ->]. }
  destruct wb2 as [|ws2 wb2]; [by inversion Hsame|].
  pose proof (Forall2_length _ _ _ Hsame) as Hlen.
  destruct Hrun1 as [Hdf1 Hout1], Hrun2 as [Hdf2 Hout2].
  destruct (run_sheet (ws1 :: wb1) df1 out1) as
    (grid1 & Hgrid1 & _ & _ & Hwidth1 & Harrays1 & _ & Hhead1 & Hcells1 & Hdom1);
    [done..|].
  destruct (run_sheet (ws2 :: wb2) df2 out2) as
    (grid2 & Hgrid2 & _ & _ & Hwidth2 & Harrays2 & _ & Hhead2 & Hcells2 & Hdom2);
    [done..|].
  assert (Hcol : column grid1 j = column grid2 j).
  { eapply column_agree; [exact Hsame | by eapply column_fields..]. }
  assert (Hlt : (j < 34)%nat) by (by apply lookup_lt_Some in Hj).
  destruct (lookup_lt_is_Some_2 (arrays df1) j) as [a1 Ha1]; [lia|].
  destruct (lookup_lt_is_Some_2 (arrays df2) j) as [a2 Ha2]; [lia|].
  pose proof (Harrays1 j a1 Ha1) as Hconv1.
  pose proof (Harrays2 j a2 Ha2) as Hconv2.
  assert (a2 = a1) as -> by congruence.
  destruct (decide (row = 1)) as [->|Hrow1].
  { pose proof (labels_lookup j header r c Hj) as Hlabel.
    by rewrite (Hhead1 j header Hlabel), (Hhead2 j header Hlabel). }
  destruct (decide (2 ≤ row ≤ 1 + Z.of_nat (length (ws1 :: wb1)))) as [Hin|Hout].
  - assert (Hi : (Z.to_nat (row - 2) < length (tolist a1))%nat).
    { rewrite (maybe_convert_objects_length _ _ Hconv1). unfold column.
      rewrite length_map, <- (Forall2_length _ _ _ Hgrid1). lia. }
    destruct (lookup_lt_is_Some_2 _ _ Hi) as [y Hy].
    destruct (Hcells1 _ j a1 y Ha1 Hy) as (cl1 & Hcl1 & Hcell1).
    destruct (Hcells2 _ j a1 y Ha2 Hy) as (cl2 & Hcl2 & Hcell2).
    replace (2 + Z.of_nat (Z.to_nat (row - 2))) with row in Hcell1, Hcell2 by lia.
    rewrite Hcell1, Hcell2. congruence.
  - assert (Hnone1 : _cells out1 !! (row, 1 + Z.of_nat j) = None).
    { apply eq_None_not_Some. intros [Hr _]%Hdom1. lia. }
    assert (Hnone2 : _cells out2 !! (row, 1 + Z.of_nat j) = None).
    { apply eq_None_not_Some. intros [Hr _]%Hdom2. rewrite <- Hlen in Hr. lia. }
    by rewrite Hnone1, Hnone2.
Qed.

Lemma column_independent_witness :
  _cells two_sheets_out !! (3, 1 + Z.of_nat 1)
  = _cells noted_sheets_out !! (3, 1 + Z.of_nat 1).
Proof.
  assert (Hrun1 : run two_sheets two_sheets_df two_sheets_out)
    by (split; vm_compute; reflexivity).
  assert (Hrun2 : run noted_sheets noted_sheets_df noted_sheets_out)
    by (split; vm_compute; reflexivity).
  assert (Hj : cell_map !! 1%nat = Some ("EEV", (7, 2))) by reflexivity.
  assert (H1 : field_value (sheet_of [((7, 2), VInt 250)]) "EEV" 7 2
               = field_value (sheet_of [((7, 2), VInt 250); ((2, 2), VStr "T1")])
                   "EEV" 7 2)
    by (vm_compute; reflexivity).
  assert (H2 : field_value (sheet_of []) "EEV" 7 2
               = field_value (sheet_of []) "EEV" 7 2)
    by (vm_compute; reflexivity).
  assert (Hsame : Forall2 (λ ws1 ws2, field_value ws1 "EEV" 7 2
                                      = field_value ws2 "EEV" 7 2)
                    two_sheets noted_sheets).
  { apply List.Forall2_cons; [exact H1|].
    apply List.Forall2_cons; [exact H2|]. apply List.Forall2_nil. }
  exact (column_independent two_sheets noted_sheets _ _ _ _ 1 "EEV" 7 2
           Hrun1 Hrun2 Hj Hsame 3).
Defined.

(** ** Columns that are not converted *)

Lemma maybe_convert_objects_kept (objects : list pyval) (a : ndarray) (v : pyval) :
  maybe_convert_objects objects = Ok a → v ∈ objects → keeps_objects v = true →
  tolist a = objects.
Proof.
  intros Ha Hv Hkeeps.
  destruct (maybe_convert_objects_tolist objects a Ha) as [[xs ->]|]; [|done].
  exfalso. revert Ha. unfold maybe_convert_objects.
  intros (seen & [_ Hnoted]%scan_objects_noted & Hresult)%bind_Ok.
  assert (Hflag : bool_ seen = true ∨ object_ seen = true).
  { destruct (object_ seen) eqn:Hobj; [by right|]. left.
    pose proof (proj1 (Forall_forall _ _) (Hnoted eq_refl) v Hv) as Hn.
    by destruct v. }
  revert Hresult. unfold is_bool, is_bool_or_na, numeric_.
  destruct seen as [null nan boolean i f si ui obj]; simpl in *.
  clear Hnoted.
  destruct Hflag as [-> | ->]; destruct null, nan, i, f, ui; simpl;
    try (destruct obj); try (destruct boolean); simpl; done.
Qed.

(** X11.  A text or a boolean anywhere in the column of a field keeps the
    whole column as it was extracted: in every row of that column the
    output sheet holds the extracted value itself - a blank stays empty and
    an integer stays an integer - with text cut at 32767 characters. *)
Theorem object_column_exact (wb : workbook) (df : DataFrame) (ws_out : Worksheet)
    (j : nat) (header : string) (r c : Z) (k : nat) (ws_k : worksheet) (v : pyval) :
  run wb df ws_out → cell_map !! j = Some (header, (r, c)) →
  wb !! k = Some ws_k → field_value ws_k header r c = Ok v →
  keeps_objects v = true →
  ∀ i ws x, wb !! i = Some ws → field_value ws header r c = Ok x →
    out_value ws_out (2 + Z.of_nat i) (1 + Z.of_nat j) = Some (as_written x).
Proof.
  intros [Hdf Hout] Hj Hk Hv Hkeeps i ws x Hws Hx.
  destruct (run_cell wb df ws_out i ws j header r c Hdf Hout Hws Hj)
    as (grid & x' & a & y & cl & Hgrid & Hx' & Hcol & Ha & Hconv & Hy & _ & Hcl & Hcell).
  assert (x' = x) as -> by congruence.
  pose proof (column_fields wb grid j header r c Hgrid Hj) as Hfields.
  destruct (Forall2_lookup_l _ _ _ _ _ Hfields Hk) as (v' & Hv' & Hsame).
  assert (v' = v) as -> by congruence.
  rewrite (maybe_convert_objects_kept _ a v Hconv
             (list_elem_of_lookup_2 _ _ _ Hv') Hkeeps) in Hy.
  assert (y = x) as -> by congruence.
  rewrite (out_value_cell ws_out _ _ cl Hcell). f_equal.
  apply bind_value_emitted in Hcl. by destruct x.
Qed.

Lemma object_column_exact_witness :
  out_value noted_sheets_out (2 + Z.of_nat 1) (1 + Z.of_nat 2) = Some VNone.
Proof.
  assert (Hrun : run noted_sheets noted_sheets_df noted_sheets_out)
    by (split; vm_compute; reflexivity).
  assert (Hj : cell_map !! 2%nat = Some ("Test Condition", (2, 2))) by reflexivity.
  assert (Hk : noted_sheets !! 0%nat
               = Some (sheet_of [((7, 2), VInt 250); ((2, 2), VStr "T1")]))
    by reflexivity.
  assert (Hv : field_value (sheet_of [((7, 2), VInt 250); ((2, 2), VStr "T1")])
                 "Test Condition" 2 2 = Ok (VStr "T1"))
    by (vm_compute; reflexivity).
  assert (Hws : noted_sheets !! 1%nat = Some (sheet_of [])) by reflexivity.
  assert (Hx : field_value (sheet_of []) "Test Condition" 2 2 = Ok VNone)
    by (vm_compute; reflexivity).
  exact (object_column_exact noted_sheets noted_sheets_df noted_sheets_out
           2 "Test Condition" 2 2 0 _ (VStr "T1") Hrun Hj Hk Hv eq_refl
           1 _ VNone Hws Hx).
Defined.

Lemma scan_objects_ints (objects : list pyval) (s s' : Seen) :
  Forall (λ v, ∃ n, v = VInt n) objects → scan_objects s objects = Ok s' →
  null_ s' = null_ s ∧ nan_ s' = nan_ s ∧ float_ s' = float_ s
  ∧ bool_ s' = bool_ s.
Proof.
  intros Hall. revert s. induction Hall as [|v l [n ->] _ IH]; intros s.
  - by intros [= <-].
  - cbn [scan_objects]. intros (x & _ & Hrest)%bind_Ok. revert Hrest.
    cbv zeta. destruct (negb (null_ (set_int s))).
    + destruct (_ || _ || _); [by intros [= <-]|].
      intros Hrest%IH. exact Hrest.
    + intros Hrest%IH. exact Hrest.
Qed.

Lemma maybe_convert_objects_ints (objects : list pyval) (a : ndarray) :
  Forall (λ v, ∃ n, v = VInt n) objects →
  maybe_convert_objects objects = Ok a → tolist a = objects.
Proof.
  intros Hall Ha.
  destruct (maybe_convert_objects_tolist objects a Ha) as [[xs ->]|]; [|done].
  exfalso. revert Ha. unfold maybe_convert_objects.
  intros (seen & Hflags%scan_objects_ints & Hresult)%bind_Ok; [|done].
  revert Hresult. unfold is_bool, is_bool_or_na, numeric_.
  destruct seen as [null nan boolean i f si ui obj]. simpl in *.
  destruct Hflags as (-> & -> & -> & ->). destruct i, ui, obj; done.
Qed.

(** X12.  A field that is an integer in every worksheet - for the quantity,
    a number or a text that [int] accepts - is written as those integers,
    exactly: a column of integers alone is never turned into floats. *)
Theorem integer_column_exact (wb : workbook) (df : DataFrame) (ws_out : Worksheet)
    (j : nat) (header : string) (r c : Z) :
  run wb df ws_out → cell_map !! j = Some (header, (r, c)) →
  Forall (λ ws, ∃ n, field_value ws header r c = Ok (VInt n)) wb →
  ∀ i ws n, wb !! i = Some ws → field_value ws header r c = Ok (VInt n) →
    out_value ws_out (2 + Z.of_nat i) (1 + Z.of_nat j) = Some (VInt n).
Proof.
  intros [Hdf Hout] Hj Hall i ws n Hws Hn.
  destruct (run_cell wb df ws_out i ws j header r c Hdf Hout Hws Hj)
    as (grid & x & a & y & cl & Hgrid & Hx & Hcol & Ha & Hconv & Hy & _ & Hcl & Hcell).
  assert (x = VInt n) as -> by congruence.
  pose proof (column_fields wb grid j header r c Hgrid Hj) as Hfields.
  assert (Hints : Forall (λ v, ∃ n, v = VInt n) (column grid j)).
  { apply Forall_lookup. intros k v Hv.
    destruct (Forall2_lookup_r _ _ _ _ _ Hfields Hv) as (ws' & Hws' & Hfield).
    destruct (proj1 (Forall_lookup _ _) Hall k ws' Hws') as [m Hm].
    exists m. congruence. }
  rewrite (maybe_convert_objects_ints _ a Hints Hconv) in Hy.
  assert (y = VInt n) as -> by congruence.
  rewrite (out_value_cell ws_out _ _ cl Hcell). f_equal.
  by apply bind_value_emitted in Hcl.
Qed.

Lemma integer_column_exact_witness :
  out_value charged_sheets_out (2 + Z.of_nat 0) (1 + Z.of_nat 0) = Some (VInt 1200).
Proof.
  assert (Hrun : run charged_sheets charged_sheets_df charged_sheets_out)
    by (split; vm_compute; reflexivity).
  assert (Hj : cell_map !! 0%nat = Some ("Refrigerant Qty (g)", (16, 2)))
    by reflexivity.
  assert (H1 : field_value (sheet_of [((16, 2), VStr "1200GM")])
                 "Refrigerant Qty (g)" 16 2 = Ok (VInt 1200))
    by (vm_compute; reflexivity).
  assert (H2 : field_value (sheet_of [((16, 2), VInt 900)])
                 "Refrigerant Qty (g)" 16 2 = Ok (VInt 900))
    by (vm_compute; reflexivity).
  assert (Hall : Forall (λ ws, ∃ n, field_value ws "Refrigerant Qty (g)" 16 2
                                    = Ok (VInt n)) charged_sheets).
  { apply List.Forall_cons; [by exists 1200|].
    apply List.Forall_cons; [by exists 900|]. apply List.Forall_nil. }
  assert (Hws : charged_sheets !! 0%nat = Some (sheet_of [((16, 2), VStr "1200GM")]))
    by reflexivity.
  exact (integer_column_exact charged_sheets charged_sheets_df charged_sheets_out
           0 "Refrigerant Qty (g)" 16 2 Hrun Hj Hall 0 _ 1200 Hws H1).
Defined.
